(** * repositum-scraper: a shallow embedding of [scraping.py]

    The development follows the source file top to bottom.  Python [str]
    values are sequences of Unicode code points, parsed HTML is the tree
    that BeautifulSoup builds, a Python [dict] is an insertion-ordered
    association list, and functions that can raise or that talk to the
    network live in a small error / trace monad. *)

From Stdlib Require Import List NArith ZArith String Ascii Bool Lia.
From Stdlib Require Import DecimalString.
Import ListNotations.

Set Implicit Arguments.

(** ** Python strings *)

Module PyStr.

(** A character is a Unicode code point. *)
Definition char := N.
Definition pystr := list char.

(** ASCII literals of the source, written as Rocq strings. *)
Definition lit (s : string) : pystr :=
  List.map N_of_ascii (list_ascii_of_string s).

Definition char_eqb : char -> char -> bool := N.eqb.

Fixpoint str_eqb (a b : pystr) : bool :=
  match a, b with
  | [], [] => true
  | x :: a', y :: b' => char_eqb x y && str_eqb a' b'
  | _, _ => false
  end.

(** [len(s)] *)
Definition len (s : pystr) : Z := Z.of_nat (List.length s).

(** [str.isspace] on one code point: the characters on which [str.split()]
    and [str.strip()] act when called without argument. *)
Definition is_space (c : char) : bool :=
  ((9 <=? c) && (c <=? 13) ||
   (28 <=? c) && (c <=? 32) ||
   (c =? 133) || (c =? 160) || (c =? 5760) ||
   (8192 <=? c) && (c <=? 8202) ||
   (c =? 8232) || (c =? 8233) || (c =? 8239) || (c =? 8287) ||
   (c =? 12288))%N.

(** [s.split()]: maximal runs of non-whitespace characters, in order.
    [cur] holds the current run, reversed. *)
Fixpoint split_aux (cur : pystr) (s : pystr) : list pystr :=
  match s with
  | [] => match cur with [] => [] | _ => [List.rev cur] end
  | c :: s' =>
      if is_space c then
        match cur with
        | [] => split_aux [] s'
        | _ => List.rev cur :: split_aux [] s'
        end
      else split_aux (c :: cur) s'
  end.

Definition split (s : pystr) : list pystr := split_aux [] s.

(** [sep.join(xs)] *)
Fixpoint join (sep : pystr) (xs : list pystr) : pystr :=
  match xs with
  | [] => []
  | [x] => x
  | x :: xs' => x ++ sep ++ join sep xs'
  end.

(** [s.startswith(sub)] *)
Fixpoint startswith (s sub : pystr) {struct sub} : bool :=
  match sub, s with
  | [], _ => true
  | _ :: _, [] => false
  | x :: sub', y :: s' => char_eqb x y && startswith s' sub'
  end.

(** [s.find(sub)]: the lowest index at which [sub] starts, or [-1]. *)
Fixpoint find_from (i : Z) (s sub : pystr) : Z :=
  if startswith s sub then i
  else match s with
       | [] => (-1)%Z
       | _ :: s' => find_from (i + 1) s' sub
       end.

Definition find (s sub : pystr) : Z := find_from 0 s sub.

(** [sub in s] *)
Fixpoint str_in (sub s : pystr) : bool :=
  startswith s sub ||
  match s with
  | [] => false
  | _ :: s' => str_in sub s'
  end.

(** Index normalisation of a slice bound: a negative bound counts from the
    end, and every bound is clamped to [0 .. len]. *)
Definition slice_bound (n i : Z) : Z :=
  if (i <? 0)%Z then Z.max 0 (i + n) else Z.min i n.

(** [s[start:stop]] *)
Definition slice (s : pystr) (start stop : Z) : pystr :=
  let lo := slice_bound (len s) start in
  let hi := slice_bound (len s) stop in
  firstn (Z.to_nat (hi - lo)) (skipn (Z.to_nat lo) s).

(** [s.lstrip()], [s.rstrip()], [s.strip()] *)
Fixpoint lstrip (s : pystr) : pystr :=
  match s with
  | [] => []
  | c :: s' => if is_space c then lstrip s' else s
  end.

Definition rstrip (s : pystr) : pystr := List.rev (lstrip (List.rev s)).

Definition strip (s : pystr) : pystr := rstrip (lstrip s).

(** [str(n)] for an [int]. *)
Definition str_of_int (z : Z) : pystr :=
  lit (NilZero.string_of_int (Z.to_int z)).

End PyStr.

Import PyStr.

(** ** Degree-name extraction *)

Definition opening_text_en : pystr := lit "degreeof".
Definition closing_text_en : pystr := lit "by".
Definition opening_text_de : pystr := lit "desStudiums".
Definition closing_text_de : pystr := lit "eingereichtvon".

(** [get_degree]; [None] is Python's [None]. *)
Definition get_degree (raw_text : pystr) : option pystr :=
  let text := join [] (split raw_text) in
  if str_in opening_text_en text then
    let start := (find text opening_text_en + len opening_text_en)%Z in
    let end_ := find text closing_text_en in
    Some (slice text start end_)
  else if str_in opening_text_de text then
    let start := (find text opening_text_de + len opening_text_de)%Z in
    let end_ := find text closing_text_de in
    Some (slice text start end_)
  else None.

(** ** Exceptions and outcomes *)

Inductive exn :=
| ValueError (msg : pystr)
| AttributeError (msg : pystr)
| TypeError (msg : pystr)
| KeyError (key : pystr)
| RequestException (url : pystr)
| OSError (path : pystr).

(** What a call does: return a value, raise, or (for the one unbounded
    loop of the module) exhaust the iteration budget of the model. *)
Inductive outcome (A : Type) :=
| Ok (a : A)
| Raise (e : exn)
| OutOfFuel.

Arguments Ok {A} a.
Arguments Raise {A} e.
Arguments OutOfFuel {A}.

Definition obind {A B} (c : outcome A) (k : A -> outcome B) : outcome B :=
  match c with
  | Ok a => k a
  | Raise e => Raise e
  | OutOfFuel => OutOfFuel
  end.

Notation "'let!' x ':=' c 'in' k" := (obind c (fun x => k))
  (at level 10, x pattern, c at level 100, k at level 200).

Definition none_has_no_attribute (a : string) : exn :=
  AttributeError
    (lit "'NoneType' object has no attribute '" ++ lit a ++ lit "'").

Definition none_not_subscriptable : exn :=
  TypeError (lit "'NoneType' object is not subscriptable").

(** ** Dictionaries

    A [dict] with string keys and values; insertion order is kept, and
    assigning to an existing key replaces the value in place. *)

Definition dict := list (pystr * pystr).

Fixpoint dict_get (k : pystr) (d : dict) : option pystr :=
  match d with
  | [] => None
  | (k', v) :: d' => if str_eqb k k' then Some v else dict_get k d'
  end.

Fixpoint dict_set (k v : pystr) (d : dict) : dict :=
  match d with
  | [] => [(k, v)]
  | (k', v') :: d' =>
      if str_eqb k k' then (k, v) :: d' else (k', v') :: dict_set k v d'
  end.

(** ** Parsed HTML

    The tree that [BeautifulSoup(..., 'html.parser')] builds, restricted to
    tags and text.  The multi-valued [class] attribute is kept apart as its
    list of class names, as the parser stores it; every other attribute is
    a string. *)

#[warnings="-register-all"]
Inductive node :=
| Tag (name : pystr) (classes : list pystr) (attrs : dict)
      (contents : list node)
| NavigableString (s : pystr).

(** All nodes strictly below [n], in document order. *)
Fixpoint descendants (n : node) : list node :=
  match n with
  | Tag _ _ _ cs => List.flat_map (fun c => c :: descendants c) cs
  | NavigableString _ => []
  end.

(** [tag.text] / [tag.get_text()] *)
Fixpoint get_text (n : node) : pystr :=
  match n with
  | Tag _ _ _ cs => List.flat_map get_text cs
  | NavigableString s => s
  end.

(** [tag.string]: the single string below a chain of only children. *)
Fixpoint tag_string (n : node) : option pystr :=
  match n with
  | NavigableString s => Some s
  | Tag _ _ _ [c] => tag_string c
  | Tag _ _ _ _ => None
  end.

Definition is_tag (n : node) : bool :=
  match n with Tag _ _ _ _ => true | NavigableString _ => false end.

Definition has_name (nm : pystr) (n : node) : bool :=
  match n with
  | Tag name _ _ _ => str_eqb name nm
  | NavigableString _ => false
  end.

(** A [class_=cls] filter accepts a tag when one of its class names is
    [cls], or when its class names joined by single spaces are [cls]. *)
Definition has_class (cls : pystr) (n : node) : bool :=
  match n with
  | Tag _ classes _ _ =>
      existsb (fun c => str_eqb c cls) classes
      || str_eqb (join (lit " ") classes) cls
  | NavigableString _ => false
  end.

Definition get_attr (k : pystr) (n : node) : option pystr :=
  match n with
  | Tag _ _ attrs _ => dict_get k attrs
  | NavigableString _ => None
  end.

(** [find(name, class_=cls)] and friends select with these filters. *)
Definition by_class (nm cls : string) (n : node) : bool :=
  has_name (lit nm) n && has_class (lit cls) n.

Definition by_id (nm i : string) (n : node) : bool :=
  has_name (lit nm) n &&
  match get_attr (lit "id") n with
  | Some v => str_eqb v (lit i)
  | None => false
  end.

Definition by_name (nm : string) (n : node) : bool := has_name (lit nm) n.

(** [find(name, string=s)] *)
Definition by_string (nm s : string) (n : node) : bool :=
  has_name (lit nm) n &&
  match tag_string n with
  | Some v => str_eqb v (lit s)
  | None => false
  end.

(** [find_all(name, href=True)] *)
Definition with_href (nm : string) (n : node) : bool :=
  has_name (lit nm) n &&
  match get_attr (lit "href") n with Some _ => true | None => false end.

(** [tag.find_all(...)] and [tag.find(...)] *)
Definition find_all (sel : node -> bool) (n : node) : list node :=
  List.filter (fun d => is_tag d && sel d) (descendants n).

Definition find_tag (sel : node -> bool) (n : node) : option node :=
  List.find (fun d => is_tag d && sel d) (descendants n).

(** The same calls on a variable that may hold [None]. *)
Definition find_on (what : option node) (sel : node -> bool)
  : outcome (option node) :=
  match what with
  | Some n => Ok (find_tag sel n)
  | None => Raise (none_has_no_attribute "find")
  end.

Definition find_all_on (what : option node) (sel : node -> bool)
  : outcome (list node) :=
  match what with
  | Some n => Ok (find_all sel n)
  | None => Raise (none_has_no_attribute "find_all")
  end.

Definition text_on (what : option node) : outcome pystr :=
  match what with
  | Some n => Ok (get_text n)
  | None => Raise (none_has_no_attribute "text")
  end.

(** [what[k]] *)
Definition getitem_on (what : option node) (k : string) : outcome pystr :=
  match what with
  | Some n =>
      match get_attr (lit k) n with
      | Some v => Ok v
      | None => Raise (KeyError (lit k))
      end
  | None => Raise none_not_subscriptable
  end.

(** Truth value of a variable holding a tag or [None]: a tag is always true. *)
Definition truthy {A} (what : option A) : bool :=
  match what with Some _ => true | None => false end.

(** Truth value of a variable holding a string or [None]. *)
Definition truthy_str (what : option pystr) : bool :=
  match what with
  | Some (_ :: _) => true
  | _ => false
  end.

(** ** Module constants *)

Definition DOMAIN : pystr := lit "https://repositum.tuwien.at".
Definition CRAWL_DELAY : Z := 5.

Definition INTERESTING_INFO : list pystr :=
  List.map lit
    [ "dc.contributor.advisor"; "dc.contributor.author";
      "dc.date.accessioned"; "dc.date.issued"; "dc.date.submitted";
      "dc.identifier.uri"; "dc.language.iso"; "dc.subject"; "cd.title";
      "dc.type"; "cd.contributor.assistant"; "tux.publication.orgunit";
      "cd.type.qualificationlevel"; "dc.identifier.libraryid";
      "dc.description.numberOfPages"; "dc.thesistype";
      "item.openairetype"; "item.openaccessfulltext";
      "crisitem.author.dept"; "crisitem.author.parentorg" ]%string.

Definition label_div : node -> bool :=
  by_class "div" "col-md-3 col-sm-4 metadataFieldLabel".
Definition value_div : node -> bool :=
  by_class "div" "col-md-8 col-sm-8 metadataFieldValue".
Definition bitstream_div : node -> bool :=
  by_class "div" "item-bitstream-grid-bitstream-type".

(** ** Pure extractors *)

(** [next_results_page] *)
Definition next_results_page (soup : node) : outcome (option pystr) :=
  let pagination_list :=
    find_tag (by_class "ul" "pagination pull-right") soup in
  if negb (truthy pagination_list) then Ok None
  else
    let! next_link := find_on pagination_list (by_string "a" "Next") in
    if truthy next_link then
      let! href := getitem_on next_link "href" in Ok (Some href)
    else Ok None.

(** [get_theses_links]; the anchors come from [find_all('a', href=True)],
    so [a['href']] is always there. *)
Definition get_theses_links (soup : node) : list pystr :=
  match find_tag (by_class "table" "table table-hover") soup with
  | Some theses_table =>
      List.flat_map
        (fun a =>
           match get_attr (lit "href") a with
           | Some href =>
               if startswith href (lit "/handle/") then [href] else []
           | None => []
           end)
        (find_all (with_href "a") theses_table)
  | None => []
  end.

(** One turn of the row loop of [get_resource_attributes]. *)
Definition resource_row (attributes : dict) (row : node) : dict :=
  let label := find_tag label_div row in
  let value := find_tag value_div row in
  match label, value with
  | Some label, Some value =>
      let label := strip (get_text label) in
      let value := strip (get_text value) in
      match dict_get label attributes with
      | Some old => dict_set label (old ++ lit ", " ++ value) attributes
      | None => dict_set label value attributes
      end
  | _, _ => attributes
  end.

(** [get_resource_attributes] *)
Definition get_resource_attributes (rows : list node) : dict :=
  List.fold_left resource_row rows [].

(** One turn of the row loop of [get_thesis_info]: only the label is
    tested before both texts are read. *)
Definition thesis_row (info_dict : dict) (row : node) : outcome dict :=
  if truthy (find_tag label_div row) then
    let! info := text_on (find_tag label_div row) in
    let info := strip info in
    let! data := text_on (find_tag value_div row) in
    let data := strip data in
    if existsb (str_eqb info) INTERESTING_INFO then
      match dict_get info info_dict with
      | Some old => Ok (dict_set info (old ++ lit ", " ++ data) info_dict)
      | None => Ok (dict_set info data info_dict)
      end
    else Ok info_dict
  else Ok info_dict.

(** The row loop of [get_thesis_info], from a given [info_dict]. *)
Fixpoint thesis_rows (info_dict : dict) (rows : list node) : outcome dict :=
  match rows with
  | [] => Ok info_dict
  | row :: rows' =>
      let! info_dict := thesis_row info_dict row in
      thesis_rows info_dict rows'
  end.

(** [get_metrics].  The assignment in the [if not panel] branch is followed
    by the lookups on [panel] all the same. *)
Definition get_metrics (soup : node) : outcome (pystr * pystr) :=
  let panel := find_tag (by_class "div" "panel-list-right") soup in
  let views_downloads :=
    if negb (truthy panel)
    then Some (lit "Panel not found", lit "Panel not found")
    else None in
  let! view_counter := find_on panel (by_id "span" "metric-counter-view") in
  let views :=
    match view_counter with
    | Some c => strip (get_text c)
    | None => lit "Views not found"
    end in
  let! download_counter :=
    find_on panel (by_id "span" "metric-counter-download") in
  let downloads :=
    match download_counter with
    | Some c => strip (get_text c)
    | None => lit "Downloads not found"
    end in
  Ok (views, downloads).

(** [get_pdf_link] *)
Definition get_pdf_link (wrapper_display : node) : outcome pystr :=
  let link_div := find_tag bitstream_div wrapper_display in
  if negb (truthy link_div) then Ok (lit "No bitstream grid found")
  else
    let! a := find_on link_div (by_name "a") in
    let! pdf_link := getitem_on a "href" in
    Ok pdf_link.

(** ** Effects: the network, the clock and the console *)

(** [Sleep] is a call of [time.sleep], [Get] a call of [requests.get],
    whether it is answered or raises, and [Print] a call of [print]. *)
Inductive event :=
| Sleep (seconds : Z)
| Get (url : pystr)
| Print (line : pystr).

(** A response of [requests.get]; [content] is given as the tree that
    [BeautifulSoup(page.content, 'html.parser')] makes of it. *)
Record response := { status_code : Z; content : node }.

(** A computation reads the trace of what happened so far and extends it. *)
Definition M (A : Type) : Type := list event -> outcome A * list event.

Definition ret {A} (a : A) : M A := fun tr => (Ok a, tr).

Definition raise {A} (e : exn) : M A := fun tr => (Raise e, tr).

Definition out_of_fuel {A} : M A := fun tr => (OutOfFuel, tr).

Definition bind {A B} (c : M A) (k : A -> M B) : M B :=
  fun tr =>
    match c tr with
    | (Ok a, tr') => k a tr'
    | (Raise e, tr') => (Raise e, tr')
    | (OutOfFuel, tr') => (OutOfFuel, tr')
    end.

Notation "x <- c ;; k" := (bind c (fun x => k))
  (at level 61, c at next level, right associativity).
Notation "c ;;; k" := (bind c (fun _ => k))
  (at level 61, right associativity).

Definition lift {A} (c : outcome A) : M A := fun tr => (c, tr).

Definition emit (e : event) : M unit := fun tr => (Ok tt, tr ++ [e]).

(** [time.sleep] and [print] *)
Definition sleep (seconds : Z) : M unit := emit (Sleep seconds).
Definition print (line : pystr) : M unit := emit (Print line).

(** The argument [id] of [scrape_publication_page] is whatever the caller
    passes: an [int], a [bool], a [str], [None], or any other object, given
    by what [str] makes of it. *)
Inductive pyval :=
| PyInt (z : Z)
| PyBool (b : bool)
| PyStr (s : pystr)
| PyNone
| PyObject (repr : pystr).

(** [isinstance(v, int)]: [bool] is a subclass of [int]. *)
Definition isinstance_int (v : pyval) : bool :=
  match v with
  | PyInt _ | PyBool _ => true
  | PyStr _ | PyNone | PyObject _ => false
  end.

(** The number an [int] instance compares as. *)
Definition int_value (v : pyval) : Z :=
  match v with
  | PyInt z => z
  | PyBool b => if b then 1 else 0
  | PyStr _ | PyNone | PyObject _ => 0
  end.

(** [str(v)] *)
Definition py_str (v : pyval) : pystr :=
  match v with
  | PyInt z => str_of_int z
  | PyBool b => if b then lit "True" else lit "False"
  | PyStr s => s
  | PyNone => lit "None"
  | PyObject repr => repr
  end.

(** Operands of the comparison inside the heading test of
    [scrape_publication_page]: a string, or a method bound to a string. *)
Inductive pyobj :=
| ObjStr (s : pystr)
| ObjBoundMethod (method : string) (self : pystr).

(** [a == b]: objects of different kinds are never equal. *)
Definition obj_eq (a b : pyobj) : bool :=
  match a, b with
  | ObjStr x, ObjStr y => str_eqb x y
  | ObjBoundMethod m x, ObjBoundMethod n y => String.eqb m n && str_eqb x y
  | _, _ => false
  end.

(** [lambda tag: tag.name=='h1' and tag.get_text().strip == 'Invalid Identifier']:
    the right operand of [and] compares the method [strip] itself, which is
    not called. *)
Definition invalid_identifier_heading (tag : node) : bool :=
  has_name (lit "h1") tag &&
  obj_eq (ObjBoundMethod "strip" (get_text tag))
         (ObjStr (lit "Invalid Identifier")).

(** [scrape_publication_page] returns a dictionary or a message. *)
Inductive page_result :=
| Attributes (d : dict)
| Message (s : pystr).

(** The lower-case form of an ASCII capital; on the characters of
    "http://" and "https://" this is what [str.lower] does. *)
Definition ascii_lower (c : char) : char :=
  if ((65 <=? c) && (c <=? 90))%N then (c + 32)%N else c.

(** The addresses that [requests] sends to the site: after [url.lstrip()],
    those that start with "http://" or "https://", in any case of the
    letters.  For every other string [requests.get] raises, without
    sending, one of [MissingSchema] (no scheme, as for a site-relative
    address), [InvalidSchema] or [InvalidURL]; the three are subclasses of
    [RequestException] and of [ValueError], and are the one
    [RequestException] of the model. *)
Definition sendable (url : pystr) : bool :=
  let u := List.map ascii_lower (lstrip url) in
  startswith u (lit "http://") || startswith u (lit "https://").

Section Network.

(** The site: what a request for [url] returns after the events so far. *)
Variable server : list event -> pystr -> response.

(** [f'\r{n} thesis links found'] *)
Definition progress_line (n : nat) : pystr :=
  13%N :: str_of_int (Z.of_nat n) ++ lit " thesis links found".

(** [requests.get].  An address that [requests] does not take for an
    http(s) address raises before anything is sent; any other request is
    answered by the site (failures of the transport, and addresses that
    are malformed after their scheme, are outside the model). *)
Definition requests_get (url : pystr) : M response :=
  fun tr =>
    if sendable url
    then (Ok (server tr url), tr ++ [Get url])
    else (Raise (RequestException url), tr ++ [Get url]).

(** The [while True] loop of [get_all_theses_links], run for at most
    [fuel] turns. *)
Fixpoint all_theses_loop (fuel : nat) (all_links : list pystr)
         (current_page : response) : M (list pystr) :=
  match fuel with
  | O => out_of_fuel
  | S fuel' =>
      let soup := content current_page in
      let all_links := all_links ++ get_theses_links soup in
      print (progress_line (List.length all_links)) ;;;
      next_page <- lift (next_results_page soup) ;;
      if truthy_str next_page then
        sleep CRAWL_DELAY ;;;
        current_page <- requests_get
                          (match next_page with Some u => u | None => [] end) ;;
        all_theses_loop fuel' all_links current_page
      else ret all_links
  end.

(** [get_all_theses_links] *)
Definition get_all_theses_links (fuel : nat) (start_page : pystr)
  : M (list pystr) :=
  current_page <- requests_get start_page ;;
  all_theses_loop fuel [] current_page.

(** [get_thesis_info] *)
Definition get_thesis_info (link : pystr) : M dict :=
  thesis_page <- requests_get (DOMAIN ++ link) ;;
  let soup := content thesis_page in
  let button := find_tag (by_class "a" "btn btn-primary") soup in
  button_text <- lift (text_on button) ;;
  print (lit "button string: " ++ button_text) ;;;
  if negb (truthy button)
  then raise (ValueError (lit "No full item record found"))
  else
    href <- lift (getitem_on button "href") ;;
    full_record <- requests_get (DOMAIN ++ href) ;;
    let soup := content full_record in
    let table := find_tag (by_id "div" "wrapperDisplayItem") soup in
    rows <- lift (find_all_on table (by_class "div" "row metadata-row")) ;;
    lift (thesis_rows [] rows).

(** [scrape_publication_page] *)
Definition scrape_publication_page (id : pyval) (path doi_prefix : pystr)
  : M page_result :=
  if negb (isinstance_int id)
  then raise (ValueError (lit "id must be an integer"))
  else if (int_value id <? 0)%Z
  then raise (ValueError (lit "id must be a positive integer"))
  else if (300000 <=? int_value id)%Z
  then raise (ValueError (lit "id must be less than 300_000"))
  else
    let link := DOMAIN ++ path ++ doi_prefix ++ py_str id ++ lit "?mode=full" in
    sleep CRAWL_DELAY ;;;
    page <- requests_get link ;;
    if negb (status_code page =? 200)%Z
    then ret (Message (lit "Negative response: "
                         ++ str_of_int (status_code page)))
    else
      let soup := content page in
      if truthy (find_tag invalid_identifier_heading soup)
      then ret (Message (lit "Invalid Identifier"))
      else
        match find_tag (by_id "div" "wrapperDisplayItem") soup with
        | None => ret (Message (lit "No wrapperDisplayItem found"))
        | Some wrapper_display =>
            match find_tag (by_class "div" "row") wrapper_display with
            | None => ret (Message (lit "No row class found"))
            | Some table =>
                match find_all (by_class "div" "row metadata-row") table with
                | [] => ret (Message (lit "No metadata rows found"))
                | rows =>
                    let attributes := get_resource_attributes rows in
                    metrics <- lift (get_metrics soup) ;;
                    let '(views, downloads) := metrics in
                    let attributes := dict_set (lit "Views") views attributes in
                    let attributes :=
                      dict_set (lit "Downloads") downloads attributes in
                    pdf_link <- lift (get_pdf_link wrapper_display) ;;
                    ret (Attributes
                           (dict_set (lit "PDF link") pdf_link attributes))
                end
            end
        end.

(** The default arguments [path='/handle'] and
    [doi_prefix='/20.500.12708/']. *)
Definition scrape_publication_page_default (id : pyval) : M page_result :=
  scrape_publication_page id (lit "/handle") (lit "/20.500.12708/").

End Network.

(** * Specification vocabulary *)

(** The text with every whitespace character deleted, as the
    specification describes the first step of [get_degree]. *)
Definition strip_whitespace (s : pystr) : pystr :=
  List.filter (fun c => negb (is_space c)) s.

(** [sub] occurs in [s] starting at index [i]. *)
Definition occurs_at (sub s : pystr) (i : nat) : Prop :=
  exists a b, s = a ++ sub ++ b /\ List.length a = i.

(** [i] is the index of the first occurrence of [sub] in [s]. *)
Definition first_occ (sub s : pystr) (i : nat) : Prop :=
  occurs_at sub s i /\ forall k, (k < i)%nat -> ~ occurs_at sub s k.

Definition absent (sub s : pystr) : Prop := forall k, ~ occurs_at sub s k.

(** The characters of [s] at the indices [a <= k < b]. *)
Definition substring (a b : nat) (s : pystr) : pystr :=
  firstn (b - a) (skipn a s).

Definition german_example : pystr := lit "desStudiumsInformatikeingereichtvon".

(** Whitespace characters inserted anywhere into a text, one at a time. *)
Inductive insert_spaces : pystr -> pystr -> Prop :=
| insert_none (t : pystr) : insert_spaces t t
| insert_one (t a b : pystr) (w : char) :
    insert_spaces t (a ++ b) -> is_space w = true ->
    insert_spaces t (a ++ w :: b).

(** The trimmed label and value of a row that has both elements. *)
Definition row_fields (row : node) : option (pystr * pystr) :=
  match find_tag label_div row, find_tag value_div row with
  | Some l, Some v => Some (strip (get_text l), strip (get_text v))
  | _, _ => None
  end.

(** The trimmed values that the rows give for [label], in document order. *)
Definition values_for (label : pystr) (rows : list node) : list pystr :=
  List.flat_map
    (fun row =>
       match row_fields row with
       | Some (l, v) => if str_eqb l label then [v] else []
       | None => []
       end)
    rows.

(** What a label is bound to after more values arrive. *)
Definition extend (old : option pystr) (vs : list pystr) : option pystr :=
  match old, vs with
  | Some o, _ => Some (List.fold_left (fun a v => a ++ lit ", " ++ v) vs o)
  | None, v :: vs' =>
      Some (List.fold_left (fun a v => a ++ lit ", " ++ v) vs' v)
  | None, [] => None
  end.

Definition is_sleep (e : event) : bool :=
  match e with Sleep _ => true | _ => false end.

Definition sleeps (tr : list event) : nat :=
  List.length (List.filter is_sleep tr).

(** * Sample documents and servers *)

Definition txt (s : string) : node := NavigableString (lit s).

(** An element whose [class] attribute is [cls]: the parser stores the
    whitespace-separated class names. *)
Definition elem (nm cls : string) (attrs : dict) (cs : list node) : node :=
  Tag (lit nm) (split (lit cls)) attrs cs.

(** An element without a [class] attribute. *)
Definition plain (nm : string) (attrs : dict) (cs : list node) : node :=
  Tag (lit nm) [] attrs cs.

Definition div_elem (cls : string) (cs : list node) : node :=
  elem "div" cls [] cs.

Definition document (cs : list node) : node := Tag (lit "[document]") [] [] cs.

Definition label_cell (s : string) : node :=
  div_elem "col-md-3 col-sm-4 metadataFieldLabel" [txt s].

Definition value_cell (s : string) : node :=
  div_elem "col-md-8 col-sm-8 metadataFieldValue" [txt s].

Definition metadata_row (label value : string) : node :=
  div_elem "row metadata-row" [label_cell label; value_cell value].

Definition subject_rows : list node :=
  [ metadata_row " dc.subject " " Logic";
    metadata_row "dc.title" "A thesis";
    div_elem "row metadata-row" [label_cell "dc.subject"];
    metadata_row "dc.subject" "Proofs " ].

Definition label_only_row : node :=
  div_elem "row metadata-row" [label_cell "dc.subject"].

Definition page_without_panel : node :=
  document [div_elem "container" [txt "nothing to see"]].

Definition region_without_grid : node :=
  div_elem "wrapper" [div_elem "row" [txt "no files"]].

Definition region_with_empty_grid : node :=
  div_elem "wrapper"
           [div_elem "item-bitstream-grid-bitstream-type" [txt "PDF"]].

Definition region_with_link : node :=
  div_elem "wrapper"
      [div_elem "item-bitstream-grid-bitstream-type"
           [plain "a" [(lit "href", lit "/bitstream/1/thesis.pdf")]
                 [txt "PDF"]]].

Definition silent_server : list event -> pystr -> response :=
  fun _ _ => {| status_code := 404; content := document [] |}.

(** The page that the repository serves for an unknown identifier. *)
Definition invalid_identifier_page : node :=
  document
    [plain "html" []
          [plain "body" []
                [plain "h1" [] [txt " Invalid Identifier "];
                 plain "p" [] [txt "The identifier does not exist."]]]].

Definition invalid_identifier_server : list event -> pystr -> response :=
  fun _ _ => {| status_code := 200; content := invalid_identifier_page |}.

Definition anchor (href label : string) : node :=
  plain "a" [(lit "href", lit href)] [txt label].

Definition second_page_url : string :=
  "https://repositum.tuwien.at/simple-search?start=50".

Definition first_results_page : node :=
  document
    [elem "table" "table table-hover" []
          [plain "tr" [] [anchor "/handle/20.500.12708/1" "First thesis"];
           plain "tr" [] [anchor "/cris/rp/rp001" "An author"];
           plain "tr" [] [anchor "/handle/20.500.12708/2" "Second thesis"]];
     elem "ul" "pagination pull-right" []
          [elem "li" "active" [] [anchor "#" "1"];
           plain "li" [] [anchor second_page_url "Next"]]].

Definition second_results_page : node :=
  document
    [elem "table" "table table-hover" []
          [plain "tr" [] [anchor "/handle/20.500.12708/3" "Third thesis"]];
     elem "ul" "pagination pull-right" []
          [plain "li" [] [anchor "/simple-search?start=0" "Previous"];
           elem "li" "active" [] [anchor "#" "2"]]].

Definition two_page_server : list event -> pystr -> response :=
  fun _ url =>
    {| status_code := 200;
       content := if str_eqb url (lit second_page_url)
                  then second_results_page else first_results_page |}.

(** * The remaining functions *)

(** ** Downloading the PDF *)

(** [bytes] *)
Definition bytes := list Byte.byte.

Section Downloads.

Variable server : list event -> pystr -> response.

(** The body, as raw bytes, of the answer to a request for [url] after the
    events so far. *)
Variable download : list event -> pystr -> bytes.

(** [requests.get(url).content], read as bytes. *)
Definition requests_get_content (url : pystr) : M bytes :=
  fun tr =>
    if sendable url
    then (Ok (download tr url), tr ++ [Get url])
    else (Raise (RequestException url), tr ++ [Get url]).

(** [get_thesis_pdf] *)
Definition get_thesis_pdf (link : pystr) : M bytes :=
  thesis_page <- requests_get server (DOMAIN ++ link) ;;
  let soup := content thesis_page in
  let link_div := find_tag bitstream_div soup in
  a <- lift (find_on link_div (by_name "a")) ;;
  pdf_link <- lift (getitem_on a "href") ;;
  pdf <- requests_get_content (DOMAIN ++ pdf_link) ;;
  ret pdf.

End Downloads.

(** ** Writing the metadata files *)

(** [collect_metadata] also touches the file system.  Its events are those
    of the network, clock and console, and those of the files; what
    [json.dump] writes is recorded as the value that is serialised. *)
Inductive io_event :=
| Net (e : event)
| FileOpen (path : pystr)
| JsonDump (path : pystr) (value : page_result)
| FileClose (path : pystr).

Definition IO (A : Type) : Type :=
  list io_event -> outcome A * list io_event.

(** The events that the site can observe. *)
Definition net_trace (tr : list io_event) : list event :=
  List.flat_map (fun e => match e with Net e => [e] | _ => [] end) tr.

(** Running a network computation inside [IO]: it sees the network events
    so far, and the events it adds are appended. *)
Definition run_net {A} (c : M A) : IO A :=
  fun tr =>
    let seen := net_trace tr in
    let '(r, seen') := c seen in
    (r, tr ++ List.map Net (skipn (List.length seen) seen')).

Definition io_emit (e : io_event) (tr : list io_event) : list io_event :=
  tr ++ [e].

Section Batch.

Variable server : list event -> pystr -> response.

(** The file system: whether [open(path, 'w')] succeeds after the events
    so far.  It fails, with a subclass of [OSError], when the directory
    [metadata/] is missing or not writable. *)
Variable openable : list io_event -> pystr -> bool.

(** [f'metadata/{id}.json'] *)
Definition metadata_path (id : pyval) : pystr :=
  lit "metadata/" ++ py_str id ++ lit ".json".

(** One turn of the loop of [collect_metadata]: the file is opened, which
    can fail; then the page is scraped, then the result is dumped; leaving
    the [with] block closes the file, also when the scrape raised. *)
Definition collect_one (id : pyval) : IO unit :=
  fun tr =>
    let path := metadata_path id in
    if negb (openable tr path) then (Raise (OSError path), tr)
    else
      let tr := io_emit (FileOpen path) tr in
      match run_net (scrape_publication_page_default server id) tr with
      | (Ok value, tr) =>
          (Ok tt, io_emit (FileClose path) (io_emit (JsonDump path value) tr))
      | (Raise e, tr) => (Raise e, io_emit (FileClose path) tr)
      | (OutOfFuel, tr) => (OutOfFuel, tr)
      end.

(** [collect_metadata] *)
Fixpoint collect_metadata (ids : list pyval) : IO unit :=
  fun tr =>
    match ids with
    | [] => (Ok tt, tr)
    | id :: ids' =>
        match collect_one id tr with
        | (Ok _, tr) => collect_metadata ids' tr
        | (Raise e, tr) => (Raise e, tr)
        | (OutOfFuel, tr) => (OutOfFuel, tr)
        end
    end.

End Batch.

(** * Further vocabulary *)

(** [k in d.keys()], and the keys in insertion order. *)
Definition keys (d : dict) : list pystr := List.map fst d.

(** The trimmed labels of the rows that have both elements, in document
    order. *)
Definition labels_of (rows : list node) : list pystr :=
  List.flat_map
    (fun row =>
       match row_fields row with
       | Some (l, _) => [l]
       | None => []
       end)
    rows.

(** A list without its repetitions: each string stays where it occurs
    first. *)
Fixpoint first_occurrences (l : list pystr) : list pystr :=
  match l with
  | [] => []
  | x :: l' =>
      x :: List.filter (fun y => negb (str_eqb y x)) (first_occurrences l')
  end.

Definition allowed (label : pystr) : bool :=
  existsb (str_eqb label) INTERESTING_INFO.

Definition is_get (e : event) : bool :=
  match e with Get _ => true | _ => false end.

Definition gets (tr : list event) : nat :=
  List.length (List.filter is_get tr).

(** A row on which the loop of [get_thesis_info] fails: the label element
    is there, the value element is not. *)
Definition label_without_value (row : node) : Prop :=
  find_tag label_div row <> None /\ find_tag value_div row = None.

(** An identifier that passes the three checks of
    [scrape_publication_page]. *)
Definition valid_id (id : pyval) : Prop :=
  isinstance_int id = true /\ (0 <= int_value id < 300000)%Z.

(** The address that [scrape_publication_page] requests. *)
Definition page_link (id : pyval) (path doi_prefix : pystr) : pystr :=
  DOMAIN ++ path ++ doi_prefix ++ py_str id ++ lit "?mode=full".

(** The files that were dumped, in order. *)
Definition dumps (tr : list io_event) : list (pystr * page_result) :=
  List.flat_map
    (fun e => match e with JsonDump p v => [(p, v)] | _ => [] end) tr.

Definition opened (tr : list io_event) : list pystr :=
  List.flat_map (fun e => match e with FileOpen p => [p] | _ => [] end) tr.

(** [y] is not among the keys [ks]. *)
Definition unseen (ks : list pystr) (y : pystr) : bool :=
  negb (existsb (str_eqb y) ks).

(** What [scrape_publication_page] makes of the response, once it has
    one. *)
Definition page_outcome (page : response) : outcome page_result :=
  if negb (status_code page =? 200)%Z
  then Ok (Message (lit "Negative response: "
                      ++ str_of_int (status_code page)))
  else
    let soup := content page in
    match find_tag (by_id "div" "wrapperDisplayItem") soup with
    | None => Ok (Message (lit "No wrapperDisplayItem found"))
    | Some wrapper_display =>
        match find_tag (by_class "div" "row") wrapper_display with
        | None => Ok (Message (lit "No row class found"))
        | Some table =>
            match find_all (by_class "div" "row metadata-row") table with
            | [] => Ok (Message (lit "No metadata rows found"))
            | rows =>
                let! metrics := get_metrics soup in
                let! pdf_link := get_pdf_link wrapper_display in
                Ok (Attributes
                      (dict_set (lit "PDF link") pdf_link
                         (dict_set (lit "Downloads") (snd metrics)
                            (dict_set (lit "Views") (fst metrics)
                               (get_resource_attributes rows)))))
            end
        end
    end.

(** The address requested with the default [path] and [doi_prefix]. *)
Definition default_link (id : pyval) : pystr :=
  page_link id (lit "/handle") (lit "/20.500.12708/").

(** * Further sample documents *)

(** Two file systems: one on which every file can be opened, and one
    without the directory [metadata/]. *)
Definition writable : list io_event -> pystr -> bool := fun _ _ => true.

Definition no_directory : list io_event -> pystr -> bool := fun _ _ => false.


(** A site on which every page links to a further page, the address of
    which changes with every request. *)
Definition numbered_next_url (tr : list event) : pystr :=
  lit "https://repositum.tuwien.at/simple-search?start="
  ++ str_of_int (Z.of_nat (List.length tr)).

Definition numbered_server : list event -> pystr -> response :=
  fun tr _ =>
    {| status_code := 200;
       content :=
         document
           [elem "ul" "pagination pull-right" []
                 [plain "li" []
                        [Tag (lit "a") [] [(lit "href", numbered_next_url tr)]
                             [txt "Next"]]]] |}.


(** A first page of results whose "Next" link is site-relative. *)
Definition start_url : string := "https://repositum.tuwien.at/simple-search".

Definition relative_next_url : string :=
  "/simple-search?location=theses&rpp=50&start=50".

Definition relative_first_page : node :=
  document
    [elem "table" "table table-hover" []
          [plain "tr" [] [anchor "/handle/20.500.12708/1" "First thesis"];
           plain "tr" [] [anchor "/handle/20.500.12708/2" "Second thesis"]];
     elem "ul" "pagination pull-right" []
          [elem "li" "active" [] [anchor "#" "1"];
           plain "li" [] [anchor relative_next_url "Next"]]].

Definition relative_next_server : list event -> pystr -> response :=
  fun _ url =>
    {| status_code := 200;
       content := if str_eqb url (lit start_url)
                  then relative_first_page else second_results_page |}.


(** A pagination list whose "Next" element has no address. *)
Definition page_with_broken_next : node :=
  document
    [elem "ul" "pagination pull-right" []
          [plain "li" [] [plain "a" [] [txt "Next"]]]].

(** Rows of a full item record; one label is outside the allow-list and
    one row has no label element. *)
Definition allow_list_rows : list node :=
  [ metadata_row "dc.subject" "Logic";
    metadata_row "Appears in Collections" "Thesis";
    div_elem "row metadata-row" [value_cell "stray"];
    metadata_row " dc.subject" "Proofs" ].

(** A thesis page with its primary-action link, and the full item record
    that the link leads to. *)
Definition full_record_address : string :=
  "/handle/20.500.12708/1?mode=full".

Definition thesis_summary_page : node :=
  document
    [elem "a" "btn btn-primary" [(lit "href", lit full_record_address)]
          [txt "Full item record"];
     div_elem "item-bitstream-grid-bitstream-type"
              [anchor "/bitstream/20.500.12708/1/1/thesis.pdf" "PDF"]].

Definition full_record_page : node :=
  document
    [plain "div" [(lit "id", lit "wrapperDisplayItem")] allow_list_rows].

Definition thesis_server : list event -> pystr -> response :=
  fun _ url =>
    {| status_code := 200;
       content := if str_eqb url (DOMAIN ++ lit full_record_address)
                  then full_record_page else thesis_summary_page |}.

(** The bytes that come back for any address. *)
Definition pdf_download : list event -> pystr -> bytes :=
  fun _ _ => [Byte.x25; Byte.x50; Byte.x44; Byte.x46].

(** A side panel with a view counter and no download counter. *)
Definition page_with_panel : node :=
  document
    [div_elem "panel-list-right"
              [plain "span" [(lit "id", lit "metric-counter-view")]
                     [txt " 12 "]]].

(** A publication page with metadata rows, a side panel and a PDF link. *)
Definition publication_page : node :=
  document
    [plain "div" [(lit "id", lit "wrapperDisplayItem")]
           [div_elem "row" subject_rows;
            div_elem "item-bitstream-grid-bitstream-type"
                     [anchor "/bitstream/20.500.12708/7/1/thesis.pdf" "PDF"]];
     div_elem "panel-list-right"
              [plain "span" [(lit "id", lit "metric-counter-view")]
                     [txt " 12 "]]].

Definition publication_server : list event -> pystr -> response :=
  fun _ _ => {| status_code := 200; content := publication_page |}.

(** A publication page with metadata rows and no side panel. *)
Definition page_with_rows_only : node :=
  document
    [plain "div" [(lit "id", lit "wrapperDisplayItem")]
           [div_elem "row" subject_rows]].

Definition rows_only_server : list event -> pystr -> response :=
  fun _ _ => {| status_code := 200; content := page_with_rows_only |}.

(** * Properties *)

(** ** Strings *)

Lemma str_eqb_eq (a b : pystr) : str_eqb a b = true <-> a = b.
Proof.
  revert b; induction a as [|x a IH]; intros [|y b]; simpl;
    try (split; [discriminate | congruence]); try tauto.
  unfold char_eqb. rewrite andb_true_iff, N.eqb_eq, IH.
  split; [intros [-> ->]; reflexivity | intros E; inversion E; auto].
Qed.

Lemma str_eqb_refl (a : pystr) : str_eqb a a = true.
Proof. apply str_eqb_eq; reflexivity. Qed.

Lemma str_eqb_neq (a b : pystr) : str_eqb a b = false <-> a <> b.
Proof.
  rewrite <- str_eqb_eq. destruct (str_eqb a b); split; congruence.
Qed.

Lemma str_eqb_sym (a b : pystr) : str_eqb a b = str_eqb b a.
Proof.
  destruct (str_eqb a b) eqn:E.
  - apply str_eqb_eq in E; subst. symmetry; apply str_eqb_refl.
  - symmetry. apply str_eqb_neq. apply str_eqb_neq in E. congruence.
Qed.

Lemma join_empty_cons (x : pystr) (xs : list pystr) :
  join [] (x :: xs) = x ++ join [] xs.
Proof. destruct xs; simpl; [rewrite app_nil_r|]; reflexivity. Qed.

Lemma join_split_aux (s cur : pystr) :
  join [] (split_aux cur s) = List.rev cur ++ strip_whitespace s.
Proof.
  revert cur; induction s as [|c s IH]; intros cur.
  - simpl. destruct cur; simpl; rewrite ?app_nil_r; reflexivity.
  - simpl. destruct (is_space c); simpl.
    + destruct cur as [|d cur].
      * apply IH.
      * rewrite join_empty_cons, IH. reflexivity.
    + rewrite IH. simpl. rewrite <- app_assoc. reflexivity.
Qed.

(** [''.join(raw_text.split())] deletes exactly the whitespace. *)
Lemma join_split (s : pystr) : join [] (split s) = strip_whitespace s.
Proof. unfold split. rewrite join_split_aux. reflexivity. Qed.

Lemma startswith_iff (s sub : pystr) :
  startswith s sub = true <-> occurs_at sub s 0.
Proof.
  unfold occurs_at. revert s; induction sub as [|x sub IH]; intros s.
  - simpl. split; [intros _; exists [], s; auto | reflexivity].
  - destruct s as [|y s]; simpl.
    + split; [discriminate|].
      intros (a & b & E & L). destruct a; discriminate.
    + unfold char_eqb. rewrite andb_true_iff, N.eqb_eq, IH. split.
      * intros [-> (a & b & -> & L)]. destruct a; [|discriminate].
        exists [], b. auto.
      * intros (a & b & E & L). destruct a; [|discriminate].
        simpl in E. inversion E; subst. split; [reflexivity|].
        exists [], b. auto.
Qed.

Lemma occurs_at_S (sub s : pystr) (c : char) (k : nat) :
  occurs_at sub (c :: s) (S k) <-> occurs_at sub s k.
Proof.
  unfold occurs_at. split.
  - intros (a & b & E & L). destruct a as [|d a]; [discriminate|].
    simpl in E, L. inversion E; subst. exists a, b. auto.
  - intros (a & b & -> & L). exists (c :: a), b. simpl. auto.
Qed.

Lemma occurs_at_nil (sub : pystr) (k : nat) :
  occurs_at sub [] k -> k = 0%nat.
Proof.
  intros (a & b & E & L). destruct a; [auto | discriminate].
Qed.

Lemma occurs_at_bound (sub s : pystr) (k : nat) :
  occurs_at sub s k -> (k + List.length sub <= List.length s)%nat.
Proof.
  intros (a & b & -> & <-). rewrite !length_app. lia.
Qed.

Lemma first_occ_tail (sub s : pystr) (c : char) (k : nat) :
  first_occ sub (c :: s) (S k) -> first_occ sub s k.
Proof.
  intros [H Hmin]. split; [apply occurs_at_S in H; exact H|].
  intros j Hj Hocc. apply (Hmin (S j)); [lia|]. apply occurs_at_S. exact Hocc.
Qed.

Lemma find_from_first (s sub : pystr) :
  forall k i, first_occ sub s k -> find_from i s sub = (i + Z.of_nat k)%Z.
Proof.
  induction s as [|c s IH]; intros k i Hk; simpl;
    destruct (startswith _ sub) eqn:E.
  - destruct k; [lia|]. destruct Hk as [_ Hmin].
    exfalso. apply (Hmin 0%nat); [lia|]. apply startswith_iff, E.
  - destruct Hk as [H _]. pose proof (occurs_at_nil H); subst.
    apply startswith_iff in H. congruence.
  - destruct k; [lia|]. destruct Hk as [_ Hmin].
    exfalso. apply (Hmin 0%nat); [lia|]. apply startswith_iff, E.
  - destruct k as [|k].
    + destruct Hk as [H _]. apply startswith_iff in H. congruence.
    + rewrite (IH k) by (eapply first_occ_tail; eauto). lia.
Qed.

Lemma find_from_absent (s sub : pystr) :
  forall i, absent sub s -> find_from i s sub = (-1)%Z.
Proof.
  induction s as [|c s IH]; intros i Ha; simpl;
    destruct (startswith _ sub) eqn:E;
    try (exfalso; apply (Ha 0%nat), startswith_iff, E); [reflexivity|].
  apply IH. intros k Hk. apply (Ha (S k)). apply occurs_at_S. exact Hk.
Qed.

Lemma str_in_iff (sub s : pystr) :
  str_in sub s = true <-> exists k, occurs_at sub s k.
Proof.
  induction s as [|c s IH]; simpl; rewrite orb_true_iff, startswith_iff.
  - split.
    + intros [H|H]; [eauto | discriminate].
    + intros [k H]. left. pose proof (occurs_at_nil H); subst. exact H.
  - rewrite IH. split.
    + intros [H|[k H]]; [eauto|]. exists (S k). apply occurs_at_S. exact H.
    + intros [[|k] H]; [left; exact H|]. right. exists k.
      apply occurs_at_S in H. exact H.
Qed.

Lemma str_in_absent (sub s : pystr) :
  absent sub s -> str_in sub s = false.
Proof.
  intros Ha. destruct (str_in sub s) eqn:E; [|reflexivity].
  apply str_in_iff in E. destruct E as [k Hk]. destruct (Ha k Hk).
Qed.

Lemma str_in_first (sub s : pystr) (k : nat) :
  first_occ sub s k -> str_in sub s = true.
Proof. intros [H _]. apply str_in_iff. eauto. Qed.

(** A slice with bounds inside the string is the plain substring. *)
Lemma slice_substring (s : pystr) (a b : nat) :
  (b <= List.length s)%nat ->
  slice s (Z.of_nat a) (Z.of_nat b) = substring a b s.
Proof.
  intros Hb. unfold slice, substring, slice_bound, len.
  destruct (Z.ltb_spec (Z.of_nat a) 0); [lia|].
  destruct (Z.ltb_spec (Z.of_nat b) 0); [lia|].
  destruct (Nat.le_gt_cases a (List.length s)) as [Ha|Ha].
  - rewrite !Z.min_l by lia. rewrite Nat2Z.id.
    replace (Z.to_nat (Z.of_nat b - Z.of_nat a)) with (b - a)%nat by lia.
    reflexivity.
  - rewrite (Z.min_r (Z.of_nat a)) by lia. rewrite (Z.min_l (Z.of_nat b)) by lia.
    replace (Z.to_nat (Z.of_nat b - Z.of_nat (List.length s))) with 0%nat by lia.
    rewrite (skipn_all2 (n := a)) by lia. simpl. rewrite firstn_nil.
    reflexivity.
Qed.

(** A stop bound of [-1] on a non-empty string stops before the last
    character. *)
Lemma slice_minus_one (s : pystr) (a : nat) :
  (1 <= List.length s)%nat ->
  slice s (Z.of_nat a) (-1) = substring a (List.length s - 1) s.
Proof.
  intros Hs. rewrite <- slice_substring by lia.
  unfold slice, slice_bound, len. simpl (-1 <? 0)%Z. cbv iota.
  destruct (Z.ltb_spec (Z.of_nat (List.length s - 1)) 0); [lia|].
  rewrite Z.max_r by lia.
  rewrite (Z.min_l (Z.of_nat (List.length s - 1))) by lia.
  replace (-1 + Z.of_nat (List.length s))%Z
    with (Z.of_nat (List.length s - 1)) by lia.
  reflexivity.
Qed.

Lemma first_occ_cons (sub s : pystr) (c : char) (k : nat) :
  startswith (c :: s) sub = false ->
  first_occ sub s k -> first_occ sub (c :: s) (S k).
Proof.
  intros E [H Hmin]. split; [apply occurs_at_S; exact H|].
  intros [|j] Hj Hocc.
  - apply startswith_iff in Hocc. congruence.
  - apply occurs_at_S in Hocc. apply (Hmin j); [lia | exact Hocc].
Qed.

(** [find] answers with the first occurrence when there is one, and with
    [-1] exactly when there is none. *)
Lemma find_from_spec (s sub : pystr) :
  forall i,
    (exists k, first_occ sub s k /\ find_from i s sub = (i + Z.of_nat k)%Z)
    \/ (absent sub s /\ find_from i s sub = (-1)%Z).
Proof.
  induction s as [|c s IH]; intros i; simpl;
    destruct (startswith _ sub) eqn:E.
  - left. exists 0%nat. split; [|lia].
    split; [apply startswith_iff, E | intros k Hk; lia].
  - right. split; [|reflexivity]. intros k Hk.
    pose proof (occurs_at_nil Hk); subst.
    apply startswith_iff in Hk. congruence.
  - left. exists 0%nat. split; [|lia].
    split; [apply startswith_iff, E | intros k Hk; lia].
  - destruct (IH (i + 1)%Z) as [(k & Hk & Hf)|[Ha Hf]].
    + left. exists (S k). split; [apply first_occ_cons; assumption|].
      rewrite Hf. lia.
    + right. split; [|exact Hf]. intros [|k] Hk.
      * apply startswith_iff in Hk. congruence.
      * apply occurs_at_S in Hk. exact (Ha k Hk).
Qed.

Lemma find_first_occ (s sub : pystr) (k : nat) :
  find s sub = Z.of_nat k -> first_occ sub s k.
Proof.
  unfold find. intros Hf.
  destruct (find_from_spec s sub 0) as [(j & Hj & Hf')|[_ Hf']].
  - replace k with j by lia. exact Hj.
  - lia.
Qed.

Lemma find_absent (s sub : pystr) :
  find s sub = (-1)%Z -> absent sub s.
Proof.
  unfold find. intros Hf.
  destruct (find_from_spec s sub 0) as [(j & _ & Hf')|[Ha _]].
  - lia.
  - exact Ha.
Qed.

Lemma substring_middle (a b c d : pystr) :
  substring (List.length a + List.length b)
            (List.length a + List.length b + List.length c)
            (a ++ b ++ c ++ d) = c.
Proof.
  unfold substring.
  replace (List.length a + List.length b + List.length c
           - (List.length a + List.length b))%nat
    with (List.length c) by lia.
  rewrite app_assoc, <- length_app.
  rewrite skipn_app, skipn_all, Nat.sub_diag. simpl.
  rewrite firstn_app, firstn_all, Nat.sub_diag. simpl.
  apply app_nil_r.
Qed.

(** ** Degree-name extraction *)

Section GetDegree.

Variable raw_text : pystr.

Let text := strip_whitespace raw_text.

Lemma get_degree_english (i : nat) :
  first_occ opening_text_en text i ->
  get_degree raw_text =
  Some (slice text (Z.of_nat (i + List.length opening_text_en))
              (find text closing_text_en)).
Proof.
  intros Hi. unfold get_degree. rewrite join_split. fold text. cbv zeta.
  rewrite (str_in_first Hi).
  unfold find at 1. rewrite (find_from_first 0 Hi).
  unfold len. do 3 f_equal. lia.
Qed.

Lemma get_degree_german (i : nat) :
  absent opening_text_en text ->
  first_occ opening_text_de text i ->
  get_degree raw_text =
  Some (slice text (Z.of_nat (i + List.length opening_text_de))
              (find text closing_text_de)).
Proof.
  intros Hen Hi. unfold get_degree. rewrite join_split. fold text. cbv zeta.
  rewrite (str_in_absent Hen), (str_in_first Hi).
  unfold find at 1. rewrite (find_from_first 0 Hi).
  unfold len. do 3 f_equal. lia.
Qed.

Lemma get_degree_absent :
  absent opening_text_en text -> absent opening_text_de text ->
  get_degree raw_text = None.
Proof.
  intros Hen Hde. unfold get_degree. rewrite join_split. fold text. cbv zeta.
  rewrite (str_in_absent Hen), (str_in_absent Hde). reflexivity.
Qed.

Lemma window_closed (sub : pystr) (a j : nat) :
  first_occ sub text j ->
  slice text (Z.of_nat a) (find text sub) = substring a j text.
Proof.
  intros Hj. unfold find. rewrite (find_from_first 0 Hj). simpl.
  apply slice_substring. destruct Hj as [Hj _].
  apply occurs_at_bound in Hj. lia.
Qed.

Lemma window_open (sub : pystr) (a : nat) :
  (1 <= List.length text)%nat ->
  absent sub text ->
  slice text (Z.of_nat a) (find text sub)
  = substring a (List.length text - 1) text.
Proof.
  intros Hlen Ha. unfold find. rewrite (find_from_absent 0 Ha).
  apply slice_minus_one. exact Hlen.
Qed.

End GetDegree.

(** C1. When the whitespace-stripped text contains an opening anchor
    (English first, German when the English one is absent) and the matching
    closing anchor, [get_degree] returns the characters of the stripped text
    from the end of the first opening anchor up to, and excluding, the index
    of the first occurrence of the closing anchor in the whole stripped text.
    In particular a stripped German text that contains
    "desStudiumsInformatikeingereichtvon", with neither anchor starting
    earlier, gives "Informatik". *)
Theorem get_degree_window (raw_text : pystr) :
  let text := strip_whitespace raw_text in
  (forall i j,
      first_occ opening_text_en text i ->
      first_occ closing_text_en text j ->
      get_degree raw_text
      = Some (substring (i + List.length opening_text_en) j text))
  /\ (forall i j,
         absent opening_text_en text ->
         first_occ opening_text_de text i ->
         first_occ closing_text_de text j ->
         get_degree raw_text
         = Some (substring (i + List.length opening_text_de) j text))
  /\ (forall p s,
         text = p ++ german_example ++ s ->
         absent opening_text_en text ->
         (forall k, (k < List.length p)%nat ->
                    ~ occurs_at opening_text_de text k) ->
         (forall k,
             (k < List.length p
                  + List.length (opening_text_de ++ lit "Informatik"))%nat ->
             ~ occurs_at closing_text_de text k) ->
         get_degree raw_text = Some (lit "Informatik")).
Proof.
  intros text. split; [|split].
  - intros i j Hi Hj. rewrite (get_degree_english raw_text Hi).
    f_equal. apply window_closed. exact Hj.
  - intros i j Hen Hi Hj. rewrite (get_degree_german raw_text Hen Hi).
    f_equal. apply window_closed. exact Hj.
  - intros p s Htext Hen Hop Hcl.
    assert (Hx : german_example
                 = opening_text_de ++ lit "Informatik" ++ closing_text_de)
      by reflexivity.
    assert (Hi : first_occ opening_text_de text (List.length p)).
    { split; [|exact Hop]. exists p, (lit "Informatik" ++ closing_text_de ++ s).
      split; [|reflexivity]. fold text. rewrite Htext, Hx.
      rewrite <- !app_assoc. reflexivity. }
    assert (Hj : first_occ closing_text_de text (List.length p + 21)).
    { split; [|exact Hcl]. exists (p ++ opening_text_de ++ lit "Informatik"), s.
      split; [|rewrite length_app; reflexivity]. fold text. rewrite Htext, Hx.
      rewrite <- !app_assoc. reflexivity. }
    rewrite (get_degree_german raw_text Hen Hi). f_equal.
    rewrite (window_closed raw_text _ Hj). fold text. rewrite Htext, Hx.
    rewrite <- !app_assoc.
    replace (List.length p + 21)%nat
      with (List.length p + List.length opening_text_de
            + List.length (lit "Informatik"))%nat
      by (change (List.length opening_text_de) with 11%nat;
          change (List.length (lit "Informatik")) with 10%nat; lia).
    apply (substring_middle p opening_text_de (lit "Informatik")
                            (closing_text_de ++ s)).
Qed.

(** C10. When the stripped text contains an opening anchor but not its
    closing anchor, [get_degree] still returns a string: the characters from
    the end of the first opening anchor up to, and excluding, the last
    character of the stripped text. *)
Theorem get_degree_unclosed (raw_text : pystr) :
  let text := strip_whitespace raw_text in
  (forall i,
      first_occ opening_text_en text i ->
      absent closing_text_en text ->
      get_degree raw_text
      = Some (substring (i + List.length opening_text_en)
                        (List.length text - 1) text))
  /\ (forall i,
         absent opening_text_en text ->
         first_occ opening_text_de text i ->
         absent closing_text_de text ->
         get_degree raw_text
         = Some (substring (i + List.length opening_text_de)
                           (List.length text - 1) text)).
Proof.
  intros text. split.
  - intros i Hi Hcl. rewrite (get_degree_english raw_text Hi). f_equal.
    apply window_open; [|exact Hcl].
    destruct Hi as [Hi _]. apply occurs_at_bound in Hi.
    change (List.length opening_text_en) with 8%nat in Hi. fold text. lia.
  - intros i Hen Hi Hcl. rewrite (get_degree_german raw_text Hen Hi). f_equal.
    apply window_open; [|exact Hcl].
    destruct Hi as [Hi _]. apply occurs_at_bound in Hi.
    change (List.length opening_text_de) with 11%nat in Hi. fold text. lia.
Qed.

Lemma strip_whitespace_insert (a b : pystr) (w : char) :
  is_space w = true ->
  strip_whitespace (a ++ w :: b) = strip_whitespace (a ++ b).
Proof.
  intros Hw. unfold strip_whitespace. rewrite !filter_app. simpl.
  rewrite Hw. reflexivity.
Qed.

Lemma get_degree_stripped (s t : pystr) :
  strip_whitespace s = strip_whitespace t -> get_degree s = get_degree t.
Proof.
  intros E. unfold get_degree. rewrite !join_split, E. reflexivity.
Qed.

(** C5. Inserting whitespace characters into a text, wherever they fall,
    does not change what [get_degree] returns. *)
Theorem get_degree_insert_spaces (t t' : pystr) :
  insert_spaces t t' -> get_degree t' = get_degree t.
Proof.
  induction 1 as [t | t a b w _ IH Hw]; [reflexivity|].
  rewrite <- IH. apply get_degree_stripped, strip_whitespace_insert, Hw.
Qed.

Lemma get_degree_window_witness :
  let raw_en := lit "for the degree of Master of Sci ence by the Faculty" in
  let raw_de := lit "im Rahmen des Studiums Informatik eingereicht von X" in
  (first_occ opening_text_en (strip_whitespace raw_en) 6
   /\ first_occ closing_text_en (strip_whitespace raw_en) 29
   /\ get_degree raw_en
      = Some (substring (6 + List.length opening_text_en) 29
                        (strip_whitespace raw_en)))
  /\ (absent opening_text_en (strip_whitespace raw_de)
      /\ first_occ opening_text_de (strip_whitespace raw_de) 8
      /\ first_occ closing_text_de (strip_whitespace raw_de) 29
      /\ get_degree raw_de
         = Some (substring (8 + List.length opening_text_de) 29
                           (strip_whitespace raw_de)))
  /\ (strip_whitespace raw_de = lit "imRahmen" ++ german_example ++ lit "X"
      /\ get_degree raw_de = Some (lit "Informatik")).
Proof.
  intros raw_en raw_de.
  assert (Hen1 : first_occ opening_text_en (strip_whitespace raw_en) 6)
    by (apply find_first_occ; reflexivity).
  assert (Hen2 : first_occ closing_text_en (strip_whitespace raw_en) 29)
    by (apply find_first_occ; reflexivity).
  assert (Hde0 : absent opening_text_en (strip_whitespace raw_de))
    by (apply find_absent; reflexivity).
  assert (Hde1 : first_occ opening_text_de (strip_whitespace raw_de) 8)
    by (apply find_first_occ; reflexivity).
  assert (Hde2 : first_occ closing_text_de (strip_whitespace raw_de) 29)
    by (apply find_first_occ; reflexivity).
  split; [|split].
  - split; [exact Hen1|]. split; [exact Hen2|].
    exact (proj1 (get_degree_window raw_en) 6%nat 29%nat Hen1 Hen2).
  - split; [exact Hde0|]. split; [exact Hde1|]. split; [exact Hde2|].
    exact (proj1 (proj2 (get_degree_window raw_de)) 8%nat 29%nat
                 Hde0 Hde1 Hde2).
  - split; [reflexivity|].
    exact (proj2 (proj2 (get_degree_window raw_de)) (lit "imRahmen") (lit "X")
                 eq_refl Hde0 (proj2 Hde1) (proj2 Hde2)).
Defined.

Lemma get_degree_unclosed_witness :
  let raw_en := lit "the degree of Master thesis" in
  let raw_de := lit "des Studiums Informatik Wien" in
  (first_occ opening_text_en (strip_whitespace raw_en) 3
   /\ absent closing_text_en (strip_whitespace raw_en)
   /\ get_degree raw_en = Some (lit "Masterthesi"))
  /\ (absent opening_text_en (strip_whitespace raw_de)
      /\ first_occ opening_text_de (strip_whitespace raw_de) 0
      /\ absent closing_text_de (strip_whitespace raw_de)
      /\ get_degree raw_de = Some (lit "InformatikWie")).
Proof.
  intros raw_en raw_de.
  assert (Hen1 : first_occ opening_text_en (strip_whitespace raw_en) 3)
    by (apply find_first_occ; reflexivity).
  assert (Hen2 : absent closing_text_en (strip_whitespace raw_en))
    by (apply find_absent; reflexivity).
  assert (Hde0 : absent opening_text_en (strip_whitespace raw_de))
    by (apply find_absent; reflexivity).
  assert (Hde1 : first_occ opening_text_de (strip_whitespace raw_de) 0)
    by (apply find_first_occ; reflexivity).
  assert (Hde2 : absent closing_text_de (strip_whitespace raw_de))
    by (apply find_absent; reflexivity).
  split.
  - split; [exact Hen1|]. split; [exact Hen2|].
    exact (proj1 (get_degree_unclosed raw_en) 3%nat Hen1 Hen2).
  - split; [exact Hde0|]. split; [exact Hde1|]. split; [exact Hde2|].
    exact (proj2 (get_degree_unclosed raw_de) 0%nat Hde0 Hde1 Hde2).
Defined.

Lemma get_degree_insert_spaces_witness :
  insert_spaces (lit "degreeofMScbyX") (lit "deg reeofMScbyX")
  /\ get_degree (lit "deg reeofMScbyX") = get_degree (lit "degreeofMScbyX").
Proof.
  assert (H : insert_spaces (lit "degreeofMScbyX") (lit "deg reeofMScbyX")).
  { apply (@insert_one (lit "degreeofMScbyX") (lit "deg")
                       (lit "reeofMScbyX") 32%N);
      [apply insert_none | reflexivity]. }
  split; [exact H|]. exact (get_degree_insert_spaces H).
Defined.

(** ** Dictionaries *)

Lemma dict_get_set_same (k v : pystr) (d : dict) :
  dict_get k (dict_set k v d) = Some v.
Proof.
  induction d as [|[k' v'] d IH]; simpl.
  - rewrite str_eqb_refl. reflexivity.
  - destruct (str_eqb k k') eqn:E; simpl.
    + rewrite str_eqb_refl. reflexivity.
    + rewrite E. exact IH.
Qed.

Lemma dict_get_set_other (k k' v : pystr) (d : dict) :
  k <> k' -> dict_get k (dict_set k' v d) = dict_get k d.
Proof.
  intros Hne. induction d as [|[k0 v0] d IH]; simpl.
  - apply str_eqb_neq in Hne. rewrite Hne. reflexivity.
  - destruct (str_eqb k' k0) eqn:E; simpl.
    + apply str_eqb_eq in E; subst k0.
      apply str_eqb_neq in Hne. rewrite Hne. reflexivity.
    + destruct (str_eqb k k0); [reflexivity | exact IH].
Qed.

(** ** The field extractor *)

Lemma resource_row_get (label : pystr) (attributes : dict) (row : node) :
  dict_get label (resource_row attributes row)
  = extend (dict_get label attributes) (values_for label [row]).
Proof.
  unfold resource_row, values_for, row_fields. simpl.
  destruct (find_tag label_div row) as [l|];
    [|destruct (dict_get label attributes); reflexivity].
  destruct (find_tag value_div row) as [v|];
    [|destruct (dict_get label attributes); reflexivity].
  rewrite app_nil_r.
  destruct (str_eqb (strip (get_text l)) label) eqn:E.
  - apply str_eqb_eq in E. rewrite E.
    destruct (dict_get label attributes) as [old|]; simpl;
      apply dict_get_set_same.
  - apply str_eqb_neq in E.
    assert (Hne : label <> strip (get_text l)) by congruence.
    destruct (dict_get (strip (get_text l)) attributes);
      rewrite (dict_get_set_other _ _ Hne);
      destruct (dict_get label attributes); reflexivity.
Qed.

Lemma extend_app (old : option pystr) (vs ws : list pystr) :
  extend (extend old vs) ws = extend old (vs ++ ws).
Proof.
  destruct old as [o|]; simpl.
  - rewrite fold_left_app. reflexivity.
  - destruct vs as [|v vs]; simpl; [reflexivity|].
    rewrite fold_left_app. reflexivity.
Qed.

Lemma values_for_cons (label : pystr) (row : node) (rows : list node) :
  values_for label (row :: rows)
  = values_for label [row] ++ values_for label rows.
Proof. unfold values_for. simpl. rewrite app_nil_r. reflexivity. Qed.

Lemma values_for_app (label : pystr) (rows1 rows2 : list node) :
  values_for label (rows1 ++ rows2)
  = values_for label rows1 ++ values_for label rows2.
Proof. unfold values_for. apply flat_map_app. Qed.

Lemma fold_rows_get (label : pystr) (rows : list node) :
  forall attributes,
    dict_get label (List.fold_left resource_row rows attributes)
    = extend (dict_get label attributes) (values_for label rows).
Proof.
  induction rows as [|row rows IH]; intros attributes.
  - simpl. destruct (dict_get label attributes); reflexivity.
  - simpl List.fold_left. rewrite IH, resource_row_get, extend_app.
    rewrite <- values_for_cons. reflexivity.
Qed.

Lemma fold_append_prefix (sep p x : pystr) (vs : list pystr) :
  List.fold_left (fun a v => a ++ sep ++ v) vs (p ++ x)
  = p ++ List.fold_left (fun a v => a ++ sep ++ v) vs x.
Proof.
  revert x; induction vs as [|v vs IH]; intros x; simpl; [reflexivity|].
  rewrite <- app_assoc. apply IH.
Qed.

Lemma join_fold (sep v : pystr) (vs : list pystr) :
  join sep (v :: vs) = List.fold_left (fun a x => a ++ sep ++ x) vs v.
Proof.
  revert v; induction vs as [|w vs IH]; intros v; [reflexivity|].
  change (join sep (v :: w :: vs)) with (v ++ sep ++ join sep (w :: vs)).
  rewrite IH. simpl.
  rewrite (fold_append_prefix sep v (sep ++ w)), (fold_append_prefix sep sep w).
  reflexivity.
Qed.

(** A row without the label element, or without the value element, leaves
    the record of [get_resource_attributes] as it would be without it. *)
Lemma get_resource_attributes_skips (rows1 rows2 : list node) (row : node) :
  find_tag label_div row = None \/ find_tag value_div row = None ->
  get_resource_attributes (rows1 ++ row :: rows2)
  = get_resource_attributes (rows1 ++ rows2).
Proof.
  intros H. unfold get_resource_attributes. rewrite !fold_left_app. simpl.
  f_equal. unfold resource_row.
  destruct H as [-> | ->]; [|destruct (find_tag label_div row)]; reflexivity.
Qed.

(** C4. When the rows carry the label [label] N >= 1 times, the record of
    [get_resource_attributes] binds it to the N trimmed values joined by
    ", " in document order; and a value that is bound after some rows is
    only ever extended at its end by the rows that follow. *)
Theorem repeated_labels_joined (rows : list node) (label : pystr) :
  (values_for label rows <> [] ->
   dict_get label (get_resource_attributes rows)
   = Some (join (lit ", ") (values_for label rows)))
  /\ (forall rows1 rows2 v,
         rows = rows1 ++ rows2 ->
         dict_get label (get_resource_attributes rows1) = Some v ->
         exists more,
           dict_get label (get_resource_attributes rows) = Some (v ++ more)).
Proof.
  split.
  - intros Hne. unfold get_resource_attributes. rewrite fold_rows_get.
    destruct (values_for label rows) as [|v vs]; [congruence|].
    rewrite join_fold. reflexivity.
  - intros rows1 rows2 v -> Hv. unfold get_resource_attributes in *.
    rewrite fold_left_app, fold_rows_get, Hv. simpl.
    exists (List.fold_left (fun a x => a ++ lit ", " ++ x)
                           (values_for label rows2) []).
    rewrite <- fold_append_prefix, app_nil_r. reflexivity.
Qed.

Example subject_rows_attributes :
  get_resource_attributes subject_rows
  = [ (lit "dc.subject", lit "Logic, Proofs"); (lit "dc.title", lit "A thesis") ].
Proof. vm_compute. reflexivity. Qed.

Lemma repeated_labels_joined_witness :
  values_for (lit "dc.subject") subject_rows <> []
  /\ dict_get (lit "dc.subject") (get_resource_attributes subject_rows)
     = Some (join (lit ", ") [lit "Logic"; lit "Proofs"])
  /\ exists more,
       dict_get (lit "dc.subject") (get_resource_attributes subject_rows)
       = Some (lit "Logic" ++ more).
Proof.
  assert (Hne : values_for (lit "dc.subject") subject_rows <> [])
    by (vm_compute; discriminate).
  split; [exact Hne|]. split.
  - exact (proj1 (repeated_labels_joined subject_rows (lit "dc.subject")) Hne).
  - exact (proj2 (repeated_labels_joined subject_rows (lit "dc.subject"))
                 (firstn 1 subject_rows) (skipn 1 subject_rows) (lit "Logic")
                 eq_refl eq_refl).
Defined.

(** ** The row loop of [get_thesis_info] *)

Lemma thesis_row_without_label (info_dict : dict) (row : node) :
  find_tag label_div row = None -> thesis_row info_dict row = Ok info_dict.
Proof. intros H. unfold thesis_row. rewrite H. reflexivity. Qed.

(** A row that has the label element but no value element stops the loop
    with an [AttributeError]. *)
Lemma thesis_rows_without_value
      (info_dict : dict) (row l : node) (rows : list node) :
  find_tag label_div row = Some l ->
  find_tag value_div row = None ->
  thesis_rows info_dict (row :: rows) = Raise (none_has_no_attribute "text").
Proof.
  intros Hl Hv. simpl. unfold thesis_row. rewrite Hl, Hv. reflexivity.
Qed.

(** C3, at a row that has a label element and no value element: the
    unrestricted extractor skips the row, the row loop of [get_thesis_info]
    raises. *)
Theorem label_only_row_outcomes :
  find_tag label_div label_only_row = Some (label_cell "dc.subject")
  /\ find_tag value_div label_only_row = None
  /\ get_resource_attributes [label_only_row] = []
  /\ thesis_rows [] [label_only_row] = Raise (none_has_no_attribute "text").
Proof. repeat split; vm_compute; reflexivity. Qed.

(** ** Metrics *)

(** Without the side panel the first lookup on [panel] raises. *)
Lemma get_metrics_without_panel (soup : node) :
  find_tag (by_class "div" "panel-list-right") soup = None ->
  get_metrics soup = Raise (none_has_no_attribute "find").
Proof. intros H. unfold get_metrics. rewrite H. reflexivity. Qed.

Lemma get_metrics_with_panel (soup panel : node) :
  find_tag (by_class "div" "panel-list-right") soup = Some panel ->
  exists views downloads, get_metrics soup = Ok (views, downloads).
Proof.
  intros H. unfold get_metrics. rewrite H. simpl. eauto.
Qed.

(** C2, at a document without the side panel: [get_metrics] raises an
    [AttributeError] instead of returning the two sentinels. *)
Theorem get_metrics_page_without_panel :
  find_tag (by_class "div" "panel-list-right") page_without_panel = None
  /\ get_metrics page_without_panel = Raise (none_has_no_attribute "find")
  /\ get_metrics page_without_panel
     <> Ok (lit "Panel not found", lit "Panel not found").
Proof.
  split; [reflexivity|]. split; [reflexivity | discriminate].
Qed.

(** ** PDF link *)

(** C8. [get_pdf_link] returns "No bitstream grid found" when the region
    has no bitstream-type container, and raises (a [TypeError], from
    subscripting the missing link) when the container is there but holds
    no link element. *)
Theorem get_pdf_link_absences (wrapper_display : node) :
  (find_tag bitstream_div wrapper_display = None ->
   get_pdf_link wrapper_display = Ok (lit "No bitstream grid found"))
  /\ (forall link_div,
         find_tag bitstream_div wrapper_display = Some link_div ->
         find_tag (by_name "a") link_div = None ->
         get_pdf_link wrapper_display = Raise none_not_subscriptable).
Proof.
  unfold get_pdf_link. split.
  - intros ->. reflexivity.
  - intros link_div -> Ha. simpl. rewrite Ha. reflexivity.
Qed.

Example get_pdf_link_found :
  get_pdf_link region_with_link = Ok (lit "/bitstream/1/thesis.pdf").
Proof. vm_compute. reflexivity. Qed.

Lemma get_pdf_link_absences_witness :
  (find_tag bitstream_div region_without_grid = None
   /\ get_pdf_link region_without_grid = Ok (lit "No bitstream grid found"))
  /\ (find_tag bitstream_div region_with_empty_grid
      = Some (div_elem "item-bitstream-grid-bitstream-type" [txt "PDF"])
      /\ find_tag (by_name "a")
                  (div_elem "item-bitstream-grid-bitstream-type" [txt "PDF"])
         = None
      /\ get_pdf_link region_with_empty_grid = Raise none_not_subscriptable).
Proof.
  split.
  - split; [reflexivity|].
    exact (proj1 (get_pdf_link_absences region_without_grid) eq_refl).
  - split; [reflexivity|]. split; [reflexivity|].
    exact (proj2 (get_pdf_link_absences region_with_empty_grid)
                 (div_elem "item-bitstream-grid-bitstream-type" [txt "PDF"])
                 eq_refl eq_refl).
Defined.

(** ** The page orchestrator *)

(** The heading test compares a bound method with a string, so it accepts
    no tag at all. *)
Lemma invalid_identifier_heading_false (tag : node) :
  invalid_identifier_heading tag = false.
Proof. unfold invalid_identifier_heading. simpl. apply andb_false_r. Qed.

Lemma find_tag_never (sel : node -> bool) (soup : node) :
  (forall tag, sel tag = false) -> find_tag sel soup = None.
Proof.
  intros Hsel. unfold find_tag.
  induction (descendants soup) as [|d ds IH]; simpl; [reflexivity|].
  rewrite Hsel, andb_false_r. exact IH.
Qed.

Lemma invalid_identifier_never_found (soup : node) :
  find_tag invalid_identifier_heading soup = None.
Proof. apply find_tag_never, invalid_identifier_heading_false. Qed.

(** C6. An identifier that is not an [int], or is negative, or is at least
    300000, makes [scrape_publication_page] raise a [ValueError] with the
    trace untouched: no delay and no request happened. *)
Theorem invalid_id_raises
        (server : list event -> pystr -> response)
        (id : pyval) (path doi_prefix : pystr) (tr : list event) :
  isinstance_int id = false
  \/ (int_value id < 0)%Z \/ (300000 <= int_value id)%Z ->
  exists msg,
    scrape_publication_page server id path doi_prefix tr
    = (Raise (ValueError msg), tr).
Proof.
  intros H. unfold scrape_publication_page.
  destruct (isinstance_int id); simpl; [|eexists; reflexivity].
  destruct (Z.ltb_spec (int_value id) 0); [eexists; reflexivity|].
  destruct (Z.leb_spec 300000 (int_value id)); [eexists; reflexivity|].
  destruct H as [H|[H|H]]; [discriminate | lia | lia].
Qed.

Lemma invalid_id_raises_witness :
  (exists msg,
      scrape_publication_page silent_server (PyInt 300000)
                              (lit "/handle") (lit "/20.500.12708/") []
      = (Raise (ValueError msg), []))
  /\ (exists msg,
         scrape_publication_page silent_server (PyInt (-1))
                                 (lit "/handle") (lit "/20.500.12708/") []
         = (Raise (ValueError msg), []))
  /\ (exists msg,
         scrape_publication_page silent_server (PyStr (lit "12"))
                                 (lit "/handle") (lit "/20.500.12708/") []
         = (Raise (ValueError msg), [])).
Proof.
  split; [|split].
  - apply (@invalid_id_raises silent_server (PyInt 300000)).
    right; right. simpl. lia.
  - apply (@invalid_id_raises silent_server (PyInt (-1))).
    right; left. simpl. lia.
  - apply (@invalid_id_raises silent_server (PyStr (lit "12"))).
    left. reflexivity.
Defined.

Example valid_id_fetches :
  scrape_publication_page_default silent_server (PyInt 299999) []
  = (Ok (Message (lit "Negative response: 404")),
     [Sleep 5;
      Get (lit "https://repositum.tuwien.at/handle/20.500.12708/299999?mode=full")]).
Proof. vm_compute. reflexivity. Qed.

(** C7, at a 200 response whose body has the heading "Invalid Identifier":
    the heading is in the page, the heading test does not find it, and the
    call goes on to look for the metadata wrapper. *)
Theorem invalid_identifier_page_outcome :
  (exists h, In h (descendants invalid_identifier_page)
             /\ has_name (lit "h1") h = true
             /\ strip (get_text h) = lit "Invalid Identifier")
  /\ find_tag invalid_identifier_heading invalid_identifier_page = None
  /\ scrape_publication_page_default invalid_identifier_server (PyInt 7) []
     = (Ok (Message (lit "No wrapperDisplayItem found")),
        [Sleep 5;
         Get (lit "https://repositum.tuwien.at/handle/20.500.12708/7?mode=full")]).
Proof.
  split; [|split].
  - exists (plain "h1" [] [txt " Invalid Identifier "]).
    split; [|split]; [|reflexivity|reflexivity].
    vm_compute. right; right; left. reflexivity.
  - reflexivity.
  - vm_compute. reflexivity.
Qed.

(** ** The link collector *)

Section Collector.

Variable server : list event -> pystr -> response.

(** A turn on a page without a usable next link ends the loop. *)
Lemma all_theses_loop_last
      (fuel : nat) (all_links : list pystr) (page : response)
      (tr : list event) :
  next_results_page (content page) = Ok None ->
  let links := all_links ++ get_theses_links (content page) in
  all_theses_loop server (S fuel) all_links page tr
  = (Ok links, tr ++ [Print (progress_line (List.length links))]).
Proof.
  intros Hnext links. simpl. unfold bind, print, emit, lift.
  rewrite Hnext. reflexivity.
Qed.

Lemma sendable_nonempty (url : pystr) : sendable url = true -> url <> [].
Proof. intros H E. subst url. discriminate. Qed.

(** Every address under [DOMAIN] is one that [requests] sends. *)
Lemma sendable_domain (rest : pystr) : sendable (DOMAIN ++ rest) = true.
Proof. reflexivity. Qed.

(** A turn on a page with a next link that [requests] sends sleeps,
    fetches it and goes on. *)
Lemma all_theses_loop_next
      (fuel : nat) (all_links : list pystr) (page : response)
      (tr : list event) (next : pystr) :
  next_results_page (content page) = Ok (Some next) ->
  sendable next = true ->
  let links := all_links ++ get_theses_links (content page) in
  let tr' := tr ++ [Print (progress_line (List.length links));
                    Sleep CRAWL_DELAY] in
  all_theses_loop server (S fuel) all_links page tr
  = all_theses_loop server fuel links (server tr' next) (tr' ++ [Get next]).
Proof.
  intros Hnext Hs links tr'. cbn [all_theses_loop].
  unfold bind, print, sleep, emit, lift, requests_get.
  rewrite Hnext. pose proof (sendable_nonempty Hs) as Hne.
  destruct next as [|c next]; [congruence|]. cbn [truthy_str].
  rewrite Hs. subst tr' links. rewrite <- !app_assoc. reflexivity.
Qed.

(** A turn on a page whose next link is not an address that [requests]
    sends sleeps, and the call of [requests.get] raises. *)
Lemma all_theses_loop_refused
      (fuel : nat) (all_links : list pystr) (page : response)
      (tr : list event) (next : pystr) :
  next_results_page (content page) = Ok (Some next) ->
  next <> [] ->
  sendable next = false ->
  let links := all_links ++ get_theses_links (content page) in
  all_theses_loop server (S fuel) all_links page tr
  = (Raise (RequestException next),
     tr ++ [Print (progress_line (List.length links));
            Sleep CRAWL_DELAY; Get next]).
Proof.
  intros Hnext Hne Hs links. cbn [all_theses_loop].
  unfold bind, print, sleep, emit, lift, requests_get.
  rewrite Hnext. destruct next as [|c next]; [congruence|].
  cbn [truthy_str]. rewrite Hs. subst links. rewrite <- !app_assoc.
  reflexivity.
Qed.

(** X26. On a result set of two pages, the first with a "Next" link whose
    address is an http(s) address and the second without "Next" link,
    [get_all_theses_links] called on an http(s) address returns the links
    of page 1 followed by those of page 2, and the events are: fetch,
    progress line, one delay, fetch, progress line. *)
Theorem two_page_collection
        (start_page next : pystr) (tr : list event) (fuel : nat) :
  let page1 := server tr start_page in
  let links1 := get_theses_links (content page1) in
  let events1 := [Get start_page;
                  Print (progress_line (List.length links1));
                  Sleep CRAWL_DELAY] in
  let page2 := server (tr ++ events1) next in
  let links2 := get_theses_links (content page2) in
  let events2 := [Get next;
                  Print (progress_line (List.length (links1 ++ links2)))] in
  sendable start_page = true ->
  next_results_page (content page1) = Ok (Some next) ->
  sendable next = true ->
  next_results_page (content page2) = Ok None ->
  (2 <= fuel)%nat ->
  get_all_theses_links server fuel start_page tr
  = (Ok (links1 ++ links2), tr ++ events1 ++ events2)
  /\ sleeps (events1 ++ events2) = 1%nat.
Proof.
  intros page1 links1 events1 page2 links2 events2 Hs0 H1 Hs1 H2 Hfuel.
  split; [|reflexivity].
  destruct fuel as [|[|fuel]]; [lia | lia |].
  unfold get_all_theses_links, bind, requests_get. rewrite Hs0.
  fold page1. rewrite (all_theses_loop_next _ _ _ _ H1 Hs1).
  change ([] ++ get_theses_links (content page1)) with links1.
  replace ((tr ++ [Get start_page])
             ++ [Print (progress_line (List.length links1));
                 Sleep CRAWL_DELAY])
    with (tr ++ events1) by (subst events1; rewrite <- app_assoc; reflexivity).
  fold page2. rewrite (all_theses_loop_last _ _ _ _ H2).
  fold links2. subst events2. rewrite <- !app_assoc. reflexivity.
Qed.

End Collector.

Lemma two_page_collection_witness :
  get_all_theses_links two_page_server 2 (lit "https://repositum.tuwien.at/simple-search") []
  = (Ok [lit "/handle/20.500.12708/1"; lit "/handle/20.500.12708/2";
         lit "/handle/20.500.12708/3"],
     [Get (lit "https://repositum.tuwien.at/simple-search");
      Print (progress_line 2);
      Sleep 5;
      Get (lit second_page_url);
      Print (progress_line 3)])
  /\ sleeps [Get (lit "https://repositum.tuwien.at/simple-search");
             Print (progress_line 2);
             Sleep 5;
             Get (lit second_page_url);
             Print (progress_line 3)] = 1%nat.
Proof.
  exact (@two_page_collection two_page_server
           (lit "https://repositum.tuwien.at/simple-search")
           (lit second_page_url) [] 2 eq_refl eq_refl eq_refl eq_refl
           (le_n 2)).
Defined.

(** C9, at a result set of two pages whose "Next" link is site-relative,
    as the thesis links of the results table are: page 1 has the "Next"
    link and page 2 has none, but the call of [requests.get] on the bare
    address raises after page 1 and the delay, and the links of page 1 are
    lost with it. *)
Theorem relative_next_link_outcome :
  next_results_page relative_first_page = Ok (Some (lit relative_next_url))
  /\ next_results_page second_results_page = Ok None
  /\ sendable (lit relative_next_url) = false
  /\ sendable (DOMAIN ++ lit relative_next_url) = true
  /\ get_all_theses_links relative_next_server 2 (lit start_url) []
     = (Raise (RequestException (lit relative_next_url)),
        [Get (lit start_url);
         Print (progress_line 2);
         Sleep 5;
         Get (lit relative_next_url)]).
Proof. repeat split; vm_compute; reflexivity. Qed.

(** * Further properties *)

(** ** More on the degree name *)

Lemma str_in_false_absent (sub s : pystr) :
  str_in sub s = false -> absent sub s.
Proof.
  intros E k Hk.
  assert (H : str_in sub s = true) by (apply str_in_iff; eauto).
  congruence.
Qed.

(** What [get_degree] returns when it returns a string: a slice of the
    stripped text. *)
Lemma get_degree_some (raw_text d : pystr) :
  get_degree raw_text = Some d ->
  exists start stop, d = slice (strip_whitespace raw_text) start stop.
Proof.
  unfold get_degree. rewrite join_split. cbv zeta.
  destruct (str_in opening_text_en _).
  - intros E; inversion E; eauto.
  - destruct (str_in opening_text_de _); [|discriminate].
    intros E; inversion E; eauto.
Qed.

Lemma slice_infix (s : pystr) (start stop : Z) :
  exists a b, s = a ++ slice s start stop ++ b.
Proof.
  unfold slice.
  set (lo := Z.to_nat (slice_bound (len s) start)).
  set (n := Z.to_nat (slice_bound (len s) stop - slice_bound (len s) start)).
  exists (firstn lo s), (skipn n (skipn lo s)).
  rewrite (firstn_skipn n (skipn lo s)), (firstn_skipn lo s). reflexivity.
Qed.

Lemma strip_whitespace_clean (s : pystr) :
  Forall (fun c => is_space c = false) (strip_whitespace s).
Proof.
  apply Forall_forall. intros c Hc. unfold strip_whitespace in Hc.
  apply filter_In in Hc. destruct Hc as [_ Hc].
  destruct (is_space c); [discriminate | reflexivity].
Qed.

(** X1. [get_degree] returns [None] exactly when neither opening anchor
    occurs in the whitespace-stripped text. *)
Theorem get_degree_none_iff (raw_text : pystr) :
  get_degree raw_text = None
  <-> absent opening_text_en (strip_whitespace raw_text)
      /\ absent opening_text_de (strip_whitespace raw_text).
Proof.
  split.
  - unfold get_degree. rewrite join_split. cbv zeta.
    destruct (str_in opening_text_en _) eqn:Een; [discriminate|].
    destruct (str_in opening_text_de _) eqn:Ede; [discriminate|].
    intros _. split; apply str_in_false_absent; assumption.
  - intros [Hen Hde]. apply get_degree_absent; assumption.
Qed.

Lemma get_degree_none_iff_witness :
  get_degree (lit "Diploma thesis, TU Wien") = None.
Proof.
  apply (proj2 (get_degree_none_iff (lit "Diploma thesis, TU Wien"))).
  split; apply find_absent; reflexivity.
Defined.

(** X2. A degree name that [get_degree] returns is a contiguous piece of
    the whitespace-stripped text, and so holds no whitespace character. *)
Theorem get_degree_piece_of_text (raw_text d : pystr) :
  get_degree raw_text = Some d ->
  (exists a b, strip_whitespace raw_text = a ++ d ++ b)
  /\ Forall (fun c => is_space c = false) d.
Proof.
  intros H. destruct (get_degree_some _ H) as (start & stop & ->).
  destruct (slice_infix (strip_whitespace raw_text) start stop)
    as (a & b & E).
  split; [eauto|].
  pose proof (strip_whitespace_clean raw_text) as Hc.
  rewrite E in Hc. apply Forall_app in Hc. destruct Hc as [_ Hc].
  apply Forall_app in Hc. destruct Hc as [Hc _].
  exact Hc.
Qed.

Lemma get_degree_piece_of_text_witness :
  (exists a b,
      strip_whitespace (lit "degree of Doctor of Sci ence by X")
      = a ++ lit "DoctorofScience" ++ b)
  /\ Forall (fun c => is_space c = false) (lit "DoctorofScience").
Proof.
  exact (@get_degree_piece_of_text
           (lit "degree of Doctor of Sci ence by X")
           (lit "DoctorofScience") eq_refl).
Defined.

Lemma substring_empty (a j : nat) (s : pystr) :
  (j <= a)%nat -> substring a j s = [].
Proof.
  intros H. unfold substring. replace (j - a)%nat with 0%nat by lia.
  reflexivity.
Qed.

(** X3. When the first occurrence of the closing anchor does not lie after
    the end of the opening anchor, [get_degree] returns the empty string,
    not [None]. *)
Theorem get_degree_closing_first (raw_text : pystr) (i j : nat) :
  let text := strip_whitespace raw_text in
  (first_occ opening_text_en text i ->
   first_occ closing_text_en text j ->
   (j <= i + List.length opening_text_en)%nat ->
   get_degree raw_text = Some [])
  /\ (absent opening_text_en text ->
      first_occ opening_text_de text i ->
      first_occ closing_text_de text j ->
      (j <= i + List.length opening_text_de)%nat ->
      get_degree raw_text = Some []).
Proof.
  intros text. split.
  - intros Hi Hj Hle. rewrite (get_degree_english raw_text Hi).
    rewrite (window_closed raw_text _ Hj). rewrite substring_empty by lia.
    reflexivity.
  - intros Hen Hi Hj Hle. rewrite (get_degree_german raw_text Hen Hi).
    rewrite (window_closed raw_text _ Hj). rewrite substring_empty by lia.
    reflexivity.
Qed.

Lemma get_degree_closing_first_witness :
  get_degree (lit "Thesis by A. Author for the degree of Master") = Some []
  /\ get_degree (lit "eingereicht von A. Autor im Rahmen des Studiums X")
     = Some [].
Proof.
  split.
  - refine (proj1 (get_degree_closing_first
                     (lit "Thesis by A. Author for the degree of Master")
                     22 6) _ _ _).
    + apply find_first_occ; reflexivity.
    + apply find_first_occ; reflexivity.
    + simpl. lia.
  - refine (proj2 (get_degree_closing_first
                     (lit "eingereicht von A. Autor im Rahmen des Studiums X")
                     29 0) _ _ _ _).
    + apply find_absent; reflexivity.
    + apply find_first_occ; reflexivity.
    + apply find_first_occ; reflexivity.
    + simpl. lia.
Defined.

(** ** Search-result pages *)

Lemma find_tag_some (sel : node -> bool) (n d : node) :
  find_tag sel n = Some d ->
  In d (descendants n) /\ is_tag d = true /\ sel d = true.
Proof.
  unfold find_tag. intros H. apply find_some in H. destruct H as [Hin Hb].
  apply andb_true_iff in Hb. tauto.
Qed.

Lemma find_all_in (sel : node -> bool) (n d : node) :
  In d (find_all sel n)
  <-> In d (descendants n) /\ is_tag d = true /\ sel d = true.
Proof.
  unfold find_all. rewrite filter_In, andb_true_iff. tauto.
Qed.

Lemma has_name_is_tag (nm : pystr) (n : node) :
  has_name nm n = true -> is_tag n = true.
Proof. destruct n; simpl; [reflexivity | discriminate]. Qed.

(** X4. The links that [get_theses_links] returns are exactly the [href]
    values starting with "/handle/" of the [a] elements inside the first
    results table; without such a table there is none. *)
Theorem get_theses_links_iff (soup : node) (link : pystr) :
  In link (get_theses_links soup)
  <-> exists table a,
      find_tag (by_class "table" "table table-hover") soup = Some table
      /\ In a (descendants table)
      /\ has_name (lit "a") a = true
      /\ get_attr (lit "href") a = Some link
      /\ startswith link (lit "/handle/") = true.
Proof.
  unfold get_theses_links.
  destruct (find_tag (by_class "table" "table table-hover") soup)
    as [table|].
  - rewrite in_flat_map. split.
    + intros (a & Ha & Hl). apply find_all_in in Ha.
      destruct Ha as (Hin & _ & Hsel). unfold with_href in Hsel.
      apply andb_true_iff in Hsel. destruct Hsel as [Hname _].
      destruct (get_attr (lit "href") a) as [href|] eqn:Eh;
        [|exfalso; exact Hl].
      destruct (startswith href (lit "/handle/")) eqn:Es;
        [|exfalso; exact Hl].
      assert (E : href = link) by (destruct Hl as [E|[]]; exact E).
      subst link. exists table, a. auto.
    + intros (t & a & Et & Hin & Hname & Eh & Es). inversion Et; subst t.
      exists a. split.
      * apply find_all_in. split; [exact Hin|].
        split; [eapply has_name_is_tag; eauto|].
        unfold with_href. rewrite Hname, Eh. reflexivity.
      * rewrite Eh, Es. left. reflexivity.
  - split; [intros H; exfalso; exact H|].
    intros (t & a & Et & _). discriminate.
Qed.

Lemma get_theses_links_iff_witness :
  exists table a,
    find_tag (by_class "table" "table table-hover") first_results_page
    = Some table
    /\ In a (descendants table)
    /\ has_name (lit "a") a = true
    /\ get_attr (lit "href") a = Some (lit "/handle/20.500.12708/2")
    /\ startswith (lit "/handle/20.500.12708/2") (lit "/handle/") = true.
Proof.
  apply (proj1 (get_theses_links_iff first_results_page
                                     (lit "/handle/20.500.12708/2"))).
  vm_compute. right. left. reflexivity.
Defined.

(** X5. [next_results_page] returns an address only when it is the [href]
    of an [a] element with string "Next" inside the first pagination list,
    and the only error it raises is the [KeyError] for a "Next" element
    that has no [href]. *)
Theorem next_results_page_outcomes (soup : node) :
  (forall url,
      next_results_page soup = Ok (Some url) ->
      exists pagination_list a,
        find_tag (by_class "ul" "pagination pull-right") soup
        = Some pagination_list
        /\ find_tag (by_string "a" "Next") pagination_list = Some a
        /\ get_attr (lit "href") a = Some url)
  /\ (forall e,
         next_results_page soup = Raise e ->
         e = KeyError (lit "href")
         /\ exists pagination_list a,
             find_tag (by_class "ul" "pagination pull-right") soup
             = Some pagination_list
             /\ find_tag (by_string "a" "Next") pagination_list = Some a
             /\ get_attr (lit "href") a = None)
  /\ next_results_page soup <> OutOfFuel.
Proof.
  unfold next_results_page.
  destruct (find_tag (by_class "ul" "pagination pull-right") soup)
    as [pl|]; simpl; [|repeat split; intros; discriminate].
  destruct (find_tag (by_string "a" "Next") pl) as [a|] eqn:Ea; simpl;
    [|repeat split; intros; discriminate].
  destruct (get_attr (lit "href") a) as [href|] eqn:Eh; simpl.
  - split; [|split]; [| intros; discriminate | discriminate].
    intros url E. inversion E; subst. exists pl, a. auto.
  - split; [|split]; [intros; discriminate | | discriminate].
    intros e E. inversion E; subst. split; [reflexivity|].
    exists pl, a. auto.
Qed.

Lemma next_results_page_outcomes_witness :
  (exists pagination_list a,
      find_tag (by_class "ul" "pagination pull-right") first_results_page
      = Some pagination_list
      /\ find_tag (by_string "a" "Next") pagination_list = Some a
      /\ get_attr (lit "href") a = Some (lit second_page_url))
  /\ (KeyError (lit "href") = KeyError (lit "href")
      /\ exists pagination_list a,
          find_tag (by_class "ul" "pagination pull-right")
                   page_with_broken_next
          = Some pagination_list
          /\ find_tag (by_string "a" "Next") pagination_list = Some a
          /\ get_attr (lit "href") a = None).
Proof.
  split.
  - exact (proj1 (next_results_page_outcomes first_results_page)
                 (lit second_page_url) eq_refl).
  - exact (proj1 (proj2 (next_results_page_outcomes page_with_broken_next))
                 (KeyError (lit "href")) eq_refl).
Defined.

(** ** The link collector, in general *)

Lemma filter_length_app {A} (f : A -> bool) (l1 l2 : list A) :
  List.length (List.filter f (l1 ++ l2))
  = (List.length (List.filter f l1) + List.length (List.filter f l2))%nat.
Proof. rewrite filter_app, length_app. reflexivity. Qed.

Section CollectorInGeneral.

Variable server : list event -> pystr -> response.

(** Inside the loop every delay comes with the call of [requests.get]
    that follows it. *)
Lemma all_theses_loop_events (fuel : nat) :
  forall all_links page tr,
  exists evs,
    snd (all_theses_loop server fuel all_links page tr) = tr ++ evs
    /\ gets evs = sleeps evs
    /\ Forall (fun e => is_sleep e = true -> e = Sleep CRAWL_DELAY) evs.
Proof.
  induction fuel as [|fuel IH]; intros all_links page tr.
  - exists []. simpl. rewrite app_nil_r. repeat split. constructor.
  - set (links := all_links ++ get_theses_links (content page)).
    set (line := Print (progress_line (List.length links))).
    assert (Hstop :
               exists evs,
                 tr ++ [line] = tr ++ evs
                 /\ gets evs = sleeps evs
                 /\ Forall (fun e => is_sleep e = true -> e = Sleep CRAWL_DELAY)
                           evs).
    { exists [line]. repeat split.
      constructor; [discriminate | constructor]. }
    destruct (next_results_page (content page)) as [next|e|] eqn:Enext.
    + destruct next as [[|c url]|].
      * cbn [all_theses_loop]. unfold bind, print, emit, lift.
        rewrite Enext. cbn [truthy_str]. fold links. fold line.
        exact Hstop.
      * destruct (sendable (c :: url)) eqn:Hs.
        -- destruct (IH links
                        (server (tr ++ [line; Sleep CRAWL_DELAY]) (c :: url))
                        ((tr ++ [line; Sleep CRAWL_DELAY])
                           ++ [Get (c :: url)]))
             as (evs & Hevs & Hcount & Hall).
           exists ([line; Sleep CRAWL_DELAY; Get (c :: url)] ++ evs).
           rewrite (all_theses_loop_next server fuel all_links page tr
                                         Enext Hs).
           fold links. fold line. rewrite Hevs. split; [|split].
           ++ rewrite <- !app_assoc. reflexivity.
           ++ unfold gets, sleeps in *. rewrite !filter_length_app.
              simpl. lia.
           ++ apply Forall_app. split; [|exact Hall].
              repeat constructor; discriminate.
        -- exists [line; Sleep CRAWL_DELAY; Get (c :: url)].
           rewrite (all_theses_loop_refused server fuel all_links page tr
                                            Enext)
             by (discriminate || exact Hs).
           fold links. fold line. split; [reflexivity|].
           split; [reflexivity|]. repeat constructor; discriminate.
      * rewrite (all_theses_loop_last server fuel all_links page tr Enext).
        fold links. fold line. exact Hstop.
    + cbn [all_theses_loop]. unfold bind, print, emit, lift.
      rewrite Enext. fold links. fold line.
      exact Hstop.
    + cbn [all_theses_loop]. unfold bind, print, emit, lift.
      rewrite Enext. fold links. fold line.
      exact Hstop.
Qed.

(** X6. However [get_all_theses_links] ends, it only adds events, every
    delay lasts [CRAWL_DELAY] seconds, and it has made exactly one fetch
    more than it has made delays. *)
Theorem collector_delays (fuel : nat) (start_page : pystr) (tr : list event) :
  exists evs,
    snd (get_all_theses_links server fuel start_page tr) = tr ++ evs
    /\ gets evs = S (sleeps evs)
    /\ Forall (fun e => is_sleep e = true -> e = Sleep CRAWL_DELAY) evs.
Proof.
  unfold get_all_theses_links, bind, requests_get.
  destruct (sendable start_page).
  - destruct (all_theses_loop_events fuel [] (server tr start_page)
                                     (tr ++ [Get start_page]))
      as (evs & Hevs & Hcount & Hall).
    exists (Get start_page :: evs). split; [|split].
    + rewrite Hevs, <- app_assoc. reflexivity.
    + unfold gets, sleeps in *. simpl. lia.
    + constructor; [discriminate | exact Hall].
  - exists [Get start_page]. split; [reflexivity|].
    split; [reflexivity|]. constructor; [discriminate | constructor].
Qed.

(** X7. When every page that the site serves has a "Next" link with an
    http(s) address, whichever address that is, the loop of
    [get_all_theses_links], started on an http(s) address, does not end:
    no number of turns is enough. *)
Theorem collector_without_end :
  (forall tr url,
      exists next,
        next_results_page (content (server tr url)) = Ok (Some next)
        /\ sendable next = true) ->
  forall fuel start_page tr,
    sendable start_page = true ->
    fst (get_all_theses_links server fuel start_page tr) = OutOfFuel.
Proof.
  intros Hnext fuel start_page tr Hs.
  unfold get_all_theses_links, bind, requests_get. rewrite Hs.
  assert (Hloop : forall n all_links tr0 url tr1,
             fst (all_theses_loop server n all_links (server tr0 url) tr1)
             = OutOfFuel).
  { induction n as [|n IH]; intros all_links tr0 url tr1; [reflexivity|].
    destruct (Hnext tr0 url) as (next & Hn & Hsn).
    rewrite (all_theses_loop_next server n all_links (server tr0 url) tr1
                                  Hn Hsn).
    apply IH. }
  apply Hloop.
Qed.

End CollectorInGeneral.

Lemma collector_without_end_witness :
  fst (get_all_theses_links numbered_server 1000 (lit start_url) [])
  = OutOfFuel.
Proof.
  refine (@collector_without_end numbered_server _ 1000%nat
            (lit start_url) [] eq_refl).
  intros tr url. exists (numbered_next_url tr).
  split; reflexivity.
Defined.

(** ** The keys of the record *)

Lemma existsb_str_in (k : pystr) (ks : list pystr) :
  existsb (str_eqb k) ks = true <-> In k ks.
Proof.
  rewrite existsb_exists. split.
  - intros (x & Hx & E). apply str_eqb_eq in E. congruence.
  - intros H. exists k. split; [exact H | apply str_eqb_refl].
Qed.

Lemma keys_dict_set (k v : pystr) (d : dict) :
  keys (dict_set k v d)
  = if existsb (str_eqb k) (keys d) then keys d else keys d ++ [k].
Proof.
  induction d as [|[k' v'] d IH]; simpl; [reflexivity|].
  destruct (str_eqb k k') eqn:E; simpl.
  - apply str_eqb_eq in E. subst. reflexivity.
  - rewrite IH. destruct (existsb (str_eqb k) (keys d)); reflexivity.
Qed.

Lemma dict_get_keys (k : pystr) (d : dict) :
  dict_get k d <> None <-> In k (keys d).
Proof.
  induction d as [|[k' v'] d IH]; simpl; [tauto|].
  destruct (str_eqb k k') eqn:E.
  - apply str_eqb_eq in E. subst. split; [auto | discriminate].
  - apply str_eqb_neq in E. rewrite IH. split; [auto|].
    intros [H|H]; [congruence | exact H].
Qed.

Lemma resource_row_fields (attributes : dict) (row : node) :
  resource_row attributes row
  = match row_fields row with
    | Some (l, v) =>
        match dict_get l attributes with
        | Some old => dict_set l (old ++ lit ", " ++ v) attributes
        | None => dict_set l v attributes
        end
    | None => attributes
    end.
Proof.
  unfold resource_row, row_fields.
  destruct (find_tag label_div row); [|reflexivity].
  destruct (find_tag value_div row); reflexivity.
Qed.

Lemma resource_row_keys (attributes : dict) (row : node) :
  keys (resource_row attributes row)
  = match row_fields row with
    | Some (l, _) =>
        if existsb (str_eqb l) (keys attributes)
        then keys attributes else keys attributes ++ [l]
    | None => keys attributes
    end.
Proof.
  rewrite resource_row_fields.
  destruct (row_fields row) as [[l v]|]; [|reflexivity].
  destruct (dict_get l attributes); apply keys_dict_set.
Qed.

Lemma filter_twice {A} (p q : A -> bool) (l : list A) :
  List.filter p (List.filter q l) = List.filter (fun y => q y && p y) l.
Proof.
  induction l as [|x l IH]; simpl; [reflexivity|].
  destruct (q x); simpl; [destruct (p x)|]; rewrite ?IH; reflexivity.
Qed.

Lemma fold_rows_keys (rows : list node) :
  forall attributes,
    keys (List.fold_left resource_row rows attributes)
    = keys attributes
      ++ List.filter (unseen (keys attributes))
                     (first_occurrences (labels_of rows)).
Proof.
  induction rows as [|row rows IH]; intros attributes.
  - simpl. rewrite app_nil_r. reflexivity.
  - simpl List.fold_left. rewrite IH, resource_row_keys.
    unfold labels_of. simpl List.flat_map. fold (labels_of rows).
    destruct (row_fields row) as [[l v]|]; [|reflexivity].
    simpl. rewrite filter_twice.
    destruct (existsb (str_eqb l) (keys attributes)) eqn:El.
    + unfold unseen at 2. rewrite El. simpl. f_equal.
      apply filter_ext. intros y. unfold unseen.
      destruct (str_eqb y l) eqn:Ey; [|reflexivity].
      apply str_eqb_eq in Ey. subst y. rewrite El. reflexivity.
    + unfold unseen at 2. rewrite El. simpl.
      rewrite <- app_assoc. simpl. do 2 f_equal.
      apply filter_ext. intros y. unfold unseen.
      rewrite existsb_app. simpl. rewrite orb_false_r, negb_orb.
      apply andb_comm.
Qed.

Lemma first_occurrences_NoDup (l : list pystr) : NoDup (first_occurrences l).
Proof.
  induction l as [|x l IH]; simpl; constructor.
  - intros H. apply filter_In in H. destruct H as [_ H].
    rewrite str_eqb_refl in H. discriminate.
  - apply NoDup_filter. exact IH.
Qed.

Lemma attributes_keys (rows : list node) :
  keys (get_resource_attributes rows) = first_occurrences (labels_of rows).
Proof.
  unfold get_resource_attributes. rewrite fold_rows_keys. simpl.
  induction (first_occurrences (labels_of rows)) as [|x xs IH];
    simpl; [reflexivity|]. f_equal. exact IH.
Qed.

(** X8. The record of [get_resource_attributes] holds each label once. *)
Theorem attributes_keys_unique (rows : list node) :
  NoDup (keys (get_resource_attributes rows)).
Proof. rewrite attributes_keys. apply first_occurrences_NoDup. Qed.

(** X9. A label is missing from the record of [get_resource_attributes]
    exactly when no row that has both elements carries it. *)
Theorem attributes_missing_iff (rows : list node) (label : pystr) :
  dict_get label (get_resource_attributes rows) = None
  <-> values_for label rows = [].
Proof.
  unfold get_resource_attributes. rewrite fold_rows_get. simpl.
  destruct (values_for label rows); simpl; split;
    congruence || discriminate.
Qed.

(** X10. The labels of the record of [get_resource_attributes] come in
    document order of their first occurrence. *)
Theorem attributes_keys_order (rows : list node) :
  keys (get_resource_attributes rows) = first_occurrences (labels_of rows).
Proof. apply attributes_keys. Qed.

(** ** The restricted extractor *)

Lemma thesis_row_fields (info_dict : dict) (row : node) :
  thesis_row info_dict row
  = match find_tag label_div row, find_tag value_div row with
    | None, _ => Ok info_dict
    | Some _, None => Raise (none_has_no_attribute "text")
    | Some l, Some v =>
        let info := strip (get_text l) in
        let data := strip (get_text v) in
        Ok (if allowed info
            then match dict_get info info_dict with
                 | Some old => dict_set info (old ++ lit ", " ++ data) info_dict
                 | None => dict_set info data info_dict
                 end
            else info_dict)
    end.
Proof.
  unfold thesis_row, allowed.
  destruct (find_tag label_div row) as [l|]; [|reflexivity].
  destruct (find_tag value_div row) as [v|]; [|reflexivity].
  cbn [truthy text_on obind].
  destruct (existsb (str_eqb (strip (get_text l))) INTERESTING_INFO);
    [|reflexivity].
  destruct (dict_get (strip (get_text l)) info_dict); reflexivity.
Qed.

Lemma thesis_rows_outcomes (rows : list node) (info_dict : dict) :
  (Exists label_without_value rows ->
   thesis_rows info_dict rows = Raise (none_has_no_attribute "text"))
  /\ (forall e,
         thesis_rows info_dict rows = Raise e ->
         e = none_has_no_attribute "text"
         /\ Exists label_without_value rows)
  /\ thesis_rows info_dict rows <> OutOfFuel.
Proof.
  revert info_dict. induction rows as [|row rows IH]; intros info_dict.
  - split; [|split]; [| intros; discriminate | discriminate].
    intros H. inversion H.
  - simpl thesis_rows. rewrite thesis_row_fields.
    destruct (find_tag label_div row) as [l|] eqn:El.
    + destruct (find_tag value_div row) as [v|] eqn:Ev.
      * cbv zeta. cbn [obind].
        match goal with
        | |- context [thesis_rows ?d rows] =>
            destruct (IH d) as (IH1 & IH2 & IH3)
        end.
        split; [|split]; [| | exact IH3].
        -- intros H. inversion H as [? ? [_ Hv]|]; subst;
             [congruence | auto].
        -- intros e He. destruct (IH2 e He) as [-> Hex].
           split; [reflexivity | apply Exists_cons_tl; exact Hex].
      * cbn [obind]. split; [|split]; [reflexivity | | discriminate].
        intros e He. inversion He; subst. split; [reflexivity|].
        apply Exists_cons_hd. split; [congruence | exact Ev].
    + cbn [obind]. destruct (IH info_dict) as (IH1 & IH2 & IH3).
      split; [|split]; [| | exact IH3].
      * intros H. inversion H as [? ? [Hl _]|]; subst;
          [congruence | auto].
      * intros e He. destruct (IH2 e He) as [-> Hex].
        split; [reflexivity | apply Exists_cons_tl; exact Hex].
Qed.

(** X11. The row loop of [get_thesis_info] raises exactly when some row
    has the label element without the value element, and the error is
    always the [AttributeError] of reading [.text] on [None]. *)
Theorem thesis_rows_raises_iff (rows : list node) (info_dict : dict) :
  (Exists label_without_value rows ->
   thesis_rows info_dict rows = Raise (none_has_no_attribute "text"))
  /\ (forall e,
         thesis_rows info_dict rows = Raise e ->
         e = none_has_no_attribute "text"
         /\ Exists label_without_value rows)
  /\ thesis_rows info_dict rows <> OutOfFuel.
Proof. apply thesis_rows_outcomes. Qed.

Lemma thesis_rows_raises_iff_witness :
  Exists label_without_value subject_rows
  /\ thesis_rows [] subject_rows = Raise (none_has_no_attribute "text").
Proof.
  assert (H : Exists label_without_value subject_rows).
  { apply Exists_cons_tl, Exists_cons_tl, Exists_cons_hd.
    split; [discriminate | reflexivity]. }
  split; [exact H|].
  exact (proj1 (thesis_rows_raises_iff subject_rows []) H).
Defined.

Lemma extend_nil (old : option pystr) : extend old [] = old.
Proof. destruct old; reflexivity. Qed.

Lemma thesis_row_get (label : pystr) (info_dict d : dict) (row : node) :
  thesis_row info_dict row = Ok d ->
  dict_get label d
  = if allowed label
    then extend (dict_get label info_dict) (values_for label [row])
    else dict_get label info_dict.
Proof.
  rewrite thesis_row_fields. unfold values_for, row_fields. simpl.
  destruct (find_tag label_div row) as [l|].
  - destruct (find_tag value_div row) as [v|]; [|discriminate].
    intros E. inversion E; subst d; clear E. rewrite app_nil_r.
    destruct (str_eqb (strip (get_text l)) label) eqn:El.
    + apply str_eqb_eq in El. rewrite El.
      destruct (allowed label); [|reflexivity].
      destruct (dict_get label info_dict); simpl; apply dict_get_set_same.
    + rewrite extend_nil.
      apply str_eqb_neq in El.
      assert (Hne : label <> strip (get_text l)) by congruence.
      destruct (allowed (strip (get_text l)));
        [|destruct (allowed label); reflexivity].
      destruct (dict_get (strip (get_text l)) info_dict);
        rewrite (dict_get_set_other _ _ Hne);
        destruct (allowed label); reflexivity.
  - intros E. inversion E; subst d. rewrite extend_nil.
    destruct (allowed label); reflexivity.
Qed.

Lemma thesis_rows_get (label : pystr) (rows : list node) :
  forall info_dict d,
    thesis_rows info_dict rows = Ok d ->
    dict_get label d
    = if allowed label
      then extend (dict_get label info_dict) (values_for label rows)
      else dict_get label info_dict.
Proof.
  induction rows as [|row rows IH]; intros info_dict d.
  - simpl. intros E. inversion E; subst. rewrite extend_nil.
    destruct (allowed label); reflexivity.
  - simpl thesis_rows.
    destruct (thesis_row info_dict row) as [d1| |] eqn:E1;
      cbn [obind]; try discriminate.
    intros E. rewrite (IH _ _ E), (thesis_row_get label _ _ E1).
    destruct (allowed label); [|reflexivity].
    rewrite extend_app, <- values_for_cons. reflexivity.
Qed.

(** X12. When the row loop of [get_thesis_info] ends without error, its
    record is the record of [get_resource_attributes] cut down to the
    labels of [INTERESTING_INFO]. *)
Theorem thesis_rows_restricts (rows : list node) (d : dict) (label : pystr) :
  thesis_rows [] rows = Ok d ->
  dict_get label d
  = if allowed label
    then dict_get label (get_resource_attributes rows)
    else None.
Proof.
  intros H. rewrite (thesis_rows_get label _ _ H).
  unfold get_resource_attributes. rewrite fold_rows_get. reflexivity.
Qed.

Lemma thesis_rows_restricts_witness :
  thesis_rows [] allow_list_rows = Ok [(lit "dc.subject", lit "Logic, Proofs")]
  /\ dict_get (lit "dc.subject") [(lit "dc.subject", lit "Logic, Proofs")]
     = (if allowed (lit "dc.subject")
        then dict_get (lit "dc.subject")
                      (get_resource_attributes allow_list_rows)
        else None)
  /\ dict_get (lit "Appears in Collections")
              [(lit "dc.subject", lit "Logic, Proofs")]
     = (if allowed (lit "Appears in Collections")
        then dict_get (lit "Appears in Collections")
                      (get_resource_attributes allow_list_rows)
        else None).
Proof.
  assert (H : thesis_rows [] allow_list_rows
              = Ok [(lit "dc.subject", lit "Logic, Proofs")])
    by reflexivity.
  split; [exact H|]. split.
  - exact (thesis_rows_restricts allow_list_rows (lit "dc.subject") H).
  - exact (thesis_rows_restricts allow_list_rows
                                 (lit "Appears in Collections") H).
Defined.

(** ** The thesis-specific path *)

Section ThesisInfo.

Variable server : list event -> pystr -> response.

(** The run of [get_thesis_info], branch by branch. *)
Lemma get_thesis_info_run (link : pystr) (tr : list event) :
  let tr1 := tr ++ [Get (DOMAIN ++ link)] in
  get_thesis_info server link tr
  = match find_tag (by_class "a" "btn btn-primary")
                   (content (server tr (DOMAIN ++ link))) with
    | None => (Raise (none_has_no_attribute "text"), tr1)
    | Some button =>
        let tr2 := tr1 ++ [Print (lit "button string: " ++ get_text button)] in
        match get_attr (lit "href") button with
        | None => (Raise (KeyError (lit "href")), tr2)
        | Some href =>
            let tr3 := tr2 ++ [Get (DOMAIN ++ href)] in
            match find_tag (by_id "div" "wrapperDisplayItem")
                           (content (server tr2 (DOMAIN ++ href))) with
            | None => (Raise (none_has_no_attribute "find_all"), tr3)
            | Some table =>
                (thesis_rows []
                   (find_all (by_class "div" "row metadata-row") table),
                 tr3)
            end
        end
    end.
Proof.
  intros tr1. unfold get_thesis_info, bind, requests_get, lift, print, emit.
  rewrite !sendable_domain. fold tr1.
  destruct (find_tag (by_class "a" "btn btn-primary") _) as [button|];
    [|reflexivity].
  cbn [text_on truthy negb getitem_on].
  destruct (get_attr (lit "href") button) as [href|]; [|reflexivity].
  rewrite sendable_domain.
  destruct (find_tag (by_id "div" "wrapperDisplayItem") _) as [table|];
    [|reflexivity].
  cbn [find_all_on].
  destruct (thesis_rows [] _); reflexivity.
Qed.

(** X13. [get_thesis_info] never raises its [ValueError]: on a page
    without the primary-action link it has already failed, with an
    [AttributeError], in the [print] that comes before the test. *)
Theorem get_thesis_info_no_value_error (link : pystr) (tr : list event) :
  (forall msg, fst (get_thesis_info server link tr) <> Raise (ValueError msg))
  /\ (find_tag (by_class "a" "btn btn-primary")
               (content (server tr (DOMAIN ++ link))) = None ->
      get_thesis_info server link tr
      = (Raise (none_has_no_attribute "text"), tr ++ [Get (DOMAIN ++ link)])).
Proof.
  rewrite get_thesis_info_run. cbv zeta. split.
  - intros msg.
    destruct (find_tag (by_class "a" "btn btn-primary") _) as [button|];
      [|discriminate].
    destruct (get_attr (lit "href") button) as [href|]; [|discriminate].
    destruct (find_tag (by_id "div" "wrapperDisplayItem") _) as [table|];
      [|discriminate].
    simpl fst. intros H.
    destruct (proj1 (proj2 (thesis_rows_outcomes _ _)) _ H) as [E _].
    discriminate.
  - intros ->. reflexivity.
Qed.

(** X14. [get_thesis_info] makes one or two requests and no delay at
    all. *)
Theorem get_thesis_info_requests (link : pystr) (tr : list event) :
  exists evs,
    snd (get_thesis_info server link tr) = tr ++ evs
    /\ sleeps evs = 0%nat
    /\ (1 <= gets evs <= 2)%nat.
Proof.
  rewrite get_thesis_info_run. cbv zeta.
  destruct (find_tag (by_class "a" "btn btn-primary") _) as [button|].
  - destruct (get_attr (lit "href") button) as [href|].
    + exists [Get (DOMAIN ++ link);
              Print (lit "button string: " ++ get_text button);
              Get (DOMAIN ++ href)].
      split; [|split; [reflexivity | unfold gets; simpl; lia]].
      destruct (find_tag (by_id "div" "wrapperDisplayItem") _);
        simpl; rewrite <- !app_assoc; reflexivity.
    + exists [Get (DOMAIN ++ link);
              Print (lit "button string: " ++ get_text button)].
      split; [|split; [reflexivity | unfold gets; simpl; lia]].
      simpl. rewrite <- !app_assoc. reflexivity.
  - exists [Get (DOMAIN ++ link)].
    split; [reflexivity|]. split; [reflexivity | unfold gets; simpl; lia].
Qed.

(** X15. Every label of a record that [get_thesis_info] returns is one of
    [INTERESTING_INFO]. *)
Theorem get_thesis_info_allow_list
        (link : pystr) (tr tr' : list event) (d : dict) (label v : pystr) :
  get_thesis_info server link tr = (Ok d, tr') ->
  dict_get label d = Some v ->
  In label INTERESTING_INFO.
Proof.
  rewrite get_thesis_info_run. cbv zeta.
  destruct (find_tag (by_class "a" "btn btn-primary") _) as [button|];
    [|discriminate].
  destruct (get_attr (lit "href") button) as [href|]; [|discriminate].
  destruct (find_tag (by_id "div" "wrapperDisplayItem") _) as [table|];
    [|discriminate].
  intros E Hv. inversion E as [[Hrows Htr]].
  rewrite (thesis_rows_get label _ _ Hrows) in Hv.
  apply existsb_str_in. fold (allowed label).
  destruct (allowed label); [reflexivity | discriminate].
Qed.

End ThesisInfo.

Lemma get_thesis_info_no_value_error_witness :
  find_tag (by_class "a" "btn btn-primary")
           (content (silent_server [] (DOMAIN ++ lit "/handle/1"))) = None
  /\ get_thesis_info silent_server (lit "/handle/1") []
     = (Raise (none_has_no_attribute "text"),
        [] ++ [Get (DOMAIN ++ lit "/handle/1")]).
Proof.
  split; [reflexivity|].
  exact (proj2 (get_thesis_info_no_value_error silent_server
                                               (lit "/handle/1") [])
               eq_refl).
Defined.

Lemma get_thesis_info_allow_list_witness :
  get_thesis_info thesis_server (lit "/handle/20.500.12708/1") []
  = (Ok [(lit "dc.subject", lit "Logic, Proofs")],
     [Get (DOMAIN ++ lit "/handle/20.500.12708/1");
      Print (lit "button string: Full item record");
      Get (DOMAIN ++ lit full_record_address)])
  /\ In (lit "dc.subject") INTERESTING_INFO.
Proof.
  assert (H : get_thesis_info thesis_server (lit "/handle/20.500.12708/1") []
              = (Ok [(lit "dc.subject", lit "Logic, Proofs")],
                 [Get (DOMAIN ++ lit "/handle/20.500.12708/1");
                  Print (lit "button string: Full item record");
                  Get (DOMAIN ++ lit full_record_address)]))
    by (vm_compute; reflexivity).
  split; [exact H|].
  exact (@get_thesis_info_allow_list thesis_server _ _ _ _
           (lit "dc.subject") (lit "Logic, Proofs") H eq_refl).
Defined.

(** ** Metrics and the PDF link, in general *)

(** X16. [get_metrics] returns a pair exactly when the document has the
    side panel. *)
Theorem get_metrics_returns_iff (soup : node) :
  (exists views downloads, get_metrics soup = Ok (views, downloads))
  <-> find_tag (by_class "div" "panel-list-right") soup <> None.
Proof.
  split.
  - intros (v & d & H) Hnone.
    rewrite (get_metrics_without_panel soup Hnone) in H. discriminate.
  - destruct (find_tag (by_class "div" "panel-list-right") soup)
      as [panel|] eqn:E; [|congruence].
    intros _. exact (get_metrics_with_panel soup E).
Qed.

(** X17. A string that [get_pdf_link] returns is the sentinel, when the
    region has no bitstream-type container, or else the [href] of the first
    [a] element of the first such container; an error that it raises is
    the [TypeError] for a container without [a] element or the [KeyError]
    for a first [a] element without [href]. *)
Theorem get_pdf_link_outcomes (wrapper_display : node) :
  (forall s,
      get_pdf_link wrapper_display = Ok s ->
      (find_tag bitstream_div wrapper_display = None
       /\ s = lit "No bitstream grid found")
      \/ exists link_div a,
          find_tag bitstream_div wrapper_display = Some link_div
          /\ find_tag (by_name "a") link_div = Some a
          /\ get_attr (lit "href") a = Some s)
  /\ (forall e,
         get_pdf_link wrapper_display = Raise e ->
         exists link_div,
           find_tag bitstream_div wrapper_display = Some link_div
           /\ ((find_tag (by_name "a") link_div = None
                /\ e = none_not_subscriptable)
               \/ exists a,
                   find_tag (by_name "a") link_div = Some a
                   /\ get_attr (lit "href") a = None
                   /\ e = KeyError (lit "href")))
  /\ get_pdf_link wrapper_display <> OutOfFuel.
Proof.
  unfold get_pdf_link.
  destruct (find_tag bitstream_div wrapper_display) as [link_div|].
  - cbn [truthy negb find_on obind].
    destruct (find_tag (by_name "a") link_div) as [a|] eqn:Ea.
    + cbn [getitem_on].
      destruct (get_attr (lit "href") a) as [href|] eqn:Eh; cbn [obind].
      * split; [|split]; [| intros; discriminate | discriminate].
        intros s E. inversion E; subst. right. exists link_div, a. auto.
      * split; [|split]; [intros; discriminate | | discriminate].
        intros e E. inversion E; subst. exists link_div.
        split; [reflexivity|]. right. exists a. auto.
    + cbn [getitem_on obind].
      split; [|split]; [intros; discriminate | | discriminate].
      intros e E. inversion E; subst. exists link_div. auto.
  - cbn [truthy negb].
    split; [|split]; [| intros; discriminate | discriminate].
    intros s E. inversion E; subst. left. auto.
Qed.

Lemma get_pdf_link_outcomes_witness :
  (find_tag bitstream_div region_with_link = None
   /\ lit "/bitstream/1/thesis.pdf" = lit "No bitstream grid found")
  \/ exists link_div a,
      find_tag bitstream_div region_with_link = Some link_div
      /\ find_tag (by_name "a") link_div = Some a
      /\ get_attr (lit "href") a = Some (lit "/bitstream/1/thesis.pdf").
Proof.
  exact (proj1 (get_pdf_link_outcomes region_with_link)
               (lit "/bitstream/1/thesis.pdf") eq_refl).
Defined.

Section ThesisPdf.

Variable server : list event -> pystr -> response.
Variable download : list event -> pystr -> bytes.

(** X18. [get_thesis_pdf] raises an [AttributeError] after its first
    request when the page has no bitstream-type container, where
    [get_pdf_link] returns its sentinel; when the container's first link
    has an address, it returns the bytes served for that address under
    [DOMAIN], after exactly two requests and no delay. *)
Theorem get_thesis_pdf_outcomes (link : pystr) (tr : list event) :
  let soup := content (server tr (DOMAIN ++ link)) in
  let tr1 := tr ++ [Get (DOMAIN ++ link)] in
  (find_tag bitstream_div soup = None ->
   get_thesis_pdf server download link tr
   = (Raise (none_has_no_attribute "find"), tr1)
   /\ get_pdf_link soup = Ok (lit "No bitstream grid found"))
  /\ (forall link_div a pdf_link,
         find_tag bitstream_div soup = Some link_div ->
         find_tag (by_name "a") link_div = Some a ->
         get_attr (lit "href") a = Some pdf_link ->
         get_thesis_pdf server download link tr
         = (Ok (download tr1 (DOMAIN ++ pdf_link)),
            tr1 ++ [Get (DOMAIN ++ pdf_link)])).
Proof.
  intros soup tr1. split.
  - intros H. split.
    + unfold get_thesis_pdf, bind, requests_get, lift.
      rewrite sendable_domain. fold soup. rewrite H. reflexivity.
    + unfold get_pdf_link. rewrite H. reflexivity.
  - intros link_div a pdf_link Hd Ha Hh.
    unfold get_thesis_pdf, bind, requests_get, requests_get_content, lift, ret.
    rewrite !sendable_domain. fold soup. rewrite Hd. cbn [find_on]. rewrite Ha. cbn [getitem_on].
    rewrite Hh. reflexivity.
Qed.

End ThesisPdf.

Lemma get_thesis_pdf_outcomes_witness :
  (find_tag bitstream_div
            (content (silent_server [] (DOMAIN ++ lit "/handle/1"))) = None
   /\ get_thesis_pdf silent_server pdf_download (lit "/handle/1") []
      = (Raise (none_has_no_attribute "find"),
         [] ++ [Get (DOMAIN ++ lit "/handle/1")]))
  /\ get_thesis_pdf thesis_server pdf_download (lit "/handle/1") []
     = (Ok [Byte.x25; Byte.x50; Byte.x44; Byte.x46],
        ([] ++ [Get (DOMAIN ++ lit "/handle/1")])
          ++ [Get (DOMAIN ++ lit "/bitstream/20.500.12708/1/1/thesis.pdf")]).
Proof.
  split.
  - split; [reflexivity|].
    exact (proj1 (proj1 (get_thesis_pdf_outcomes silent_server pdf_download
                                                 (lit "/handle/1") [])
                        eq_refl)).
  - exact (proj2 (get_thesis_pdf_outcomes thesis_server pdf_download
                                          (lit "/handle/1") [])
                 (div_elem "item-bitstream-grid-bitstream-type"
                    [anchor "/bitstream/20.500.12708/1/1/thesis.pdf" "PDF"])
                 (anchor "/bitstream/20.500.12708/1/1/thesis.pdf" "PDF")
                 (lit "/bitstream/20.500.12708/1/1/thesis.pdf")
                 eq_refl eq_refl eq_refl).
Defined.

Lemma get_metrics_returns_iff_witness :
  exists views downloads, get_metrics page_with_panel = Ok (views, downloads).
Proof.
  apply (proj2 (get_metrics_returns_iff page_with_panel)). discriminate.
Defined.

(** ** The page orchestrator, in general *)

Section Orchestrator.

Variable server : list event -> pystr -> response.

(** Past its three checks, [scrape_publication_page] delays, requests the
    page and judges the response; the heading test plays no part. *)
Lemma scrape_run (id : pyval) (path doi_prefix : pystr) (tr : list event) :
  valid_id id ->
  scrape_publication_page server id path doi_prefix tr
  = (page_outcome
       (server (tr ++ [Sleep CRAWL_DELAY]) (page_link id path doi_prefix)),
     (tr ++ [Sleep CRAWL_DELAY]) ++ [Get (page_link id path doi_prefix)]).
Proof.
  intros (Hint & H0 & H1). unfold scrape_publication_page. rewrite Hint.
  cbn [negb].
  destruct (Z.ltb_spec (int_value id) 0); [lia|].
  destruct (Z.leb_spec 300000 (int_value id)); [lia|].
  unfold bind, sleep, emit, requests_get, ret, lift.
  rewrite sendable_domain. fold (page_link id path doi_prefix).
  set (page := server (tr ++ [Sleep CRAWL_DELAY]) (page_link id path doi_prefix)).
  unfold page_outcome.
  destruct (negb (status_code page =? 200)%Z); [reflexivity|].
  rewrite invalid_identifier_never_found. cbn [truthy]. cbv zeta.
  destruct (find_tag (by_id "div" "wrapperDisplayItem") (content page))
    as [wrapper_display|]; [|reflexivity].
  destruct (find_tag (by_class "div" "row") wrapper_display) as [table|];
    [|reflexivity].
  destruct (find_all (by_class "div" "row metadata-row") table)
    as [|row rows]; [reflexivity|].
  destruct (get_metrics (content page)) as [[views downloads]| |];
    [|reflexivity|reflexivity].
  destruct (get_pdf_link wrapper_display); reflexivity.
Qed.

Lemma scrape_invalid_or_run
      (id : pyval) (path doi_prefix : pystr) (tr : list event) :
  (exists msg,
      scrape_publication_page server id path doi_prefix tr
      = (Raise (ValueError msg), tr))
  \/ valid_id id.
Proof.
  unfold valid_id, scrape_publication_page.
  destruct (isinstance_int id); cbn [negb]; [|left; eexists; reflexivity].
  destruct (Z.ltb_spec (int_value id) 0); [left; eexists; reflexivity|].
  destruct (Z.leb_spec 300000 (int_value id)); [left; eexists; reflexivity|].
  right. split; [reflexivity | lia].
Qed.

(** X19. For an identifier that passes the checks, whatever comes back,
    [scrape_publication_page] adds exactly one delay of [CRAWL_DELAY]
    seconds followed by one request, for [DOMAIN + path + doi_prefix +
    str(id) + '?mode=full']. *)
Theorem scrape_events (id : pyval) (path doi_prefix : pystr)
        (tr : list event) :
  valid_id id ->
  snd (scrape_publication_page server id path doi_prefix tr)
  = tr ++ [Sleep CRAWL_DELAY;
           Get (DOMAIN ++ path ++ doi_prefix ++ py_str id
                       ++ lit "?mode=full")].
Proof.
  intros H. rewrite (scrape_run path doi_prefix tr H). simpl snd.
  rewrite <- app_assoc. reflexivity.
Qed.

(** X20. A response whose status is not 200 gives the message
    "Negative response: " followed by the status in decimal. *)
Theorem scrape_negative_response
        (id : pyval) (path doi_prefix : pystr) (tr : list event) :
  let page := server (tr ++ [Sleep CRAWL_DELAY])
                     (page_link id path doi_prefix) in
  valid_id id ->
  status_code page <> 200%Z ->
  fst (scrape_publication_page server id path doi_prefix tr)
  = Ok (Message (lit "Negative response: " ++ str_of_int (status_code page))).
Proof.
  intros page H Hs. rewrite (scrape_run path doi_prefix tr H). simpl fst.
  fold page. unfold page_outcome.
  destruct (Z.eqb_spec (status_code page) 200); [contradiction|].
  reflexivity.
Qed.

Lemma page_outcome_message (page : response) (s : pystr) :
  page_outcome page = Ok (Message s) ->
  s = lit "Negative response: " ++ str_of_int (status_code page)
  \/ s = lit "No wrapperDisplayItem found"
  \/ s = lit "No row class found"
  \/ s = lit "No metadata rows found".
Proof.
  unfold page_outcome.
  destruct (negb (status_code page =? 200)%Z).
  { intros E; inversion E; auto. }
  cbv zeta.
  destruct (find_tag (by_id "div" "wrapperDisplayItem") (content page))
    as [wrapper_display|]; [|intros E; inversion E; auto].
  destruct (find_tag (by_class "div" "row") wrapper_display) as [table|];
    [|intros E; inversion E; auto].
  destruct (find_all (by_class "div" "row metadata-row") table)
    as [|row rows]; [intros E; inversion E; auto|].
  destruct (get_metrics (content page)) as [[views downloads]| |];
    cbn [obind]; try discriminate.
  destruct (get_pdf_link wrapper_display); cbn [obind]; discriminate.
Qed.

(** X21. [scrape_publication_page] never returns the message
    "Invalid Identifier". *)
Theorem scrape_never_invalid_identifier
        (id : pyval) (path doi_prefix : pystr) (tr : list event) :
  fst (scrape_publication_page server id path doi_prefix tr)
  <> Ok (Message (lit "Invalid Identifier")).
Proof.
  destruct (scrape_invalid_or_run id path doi_prefix tr) as [[msg E]|H].
  - rewrite E. discriminate.
  - rewrite (scrape_run path doi_prefix tr H). simpl fst. intros E.
    apply page_outcome_message in E.
    destruct E as [E|[E|[E|E]]]; discriminate.
Qed.

End Orchestrator.

Lemma scrape_events_witness :
  valid_id (PyInt 299999)
  /\ snd (scrape_publication_page silent_server (PyInt 299999)
                                  (lit "/handle") (lit "/20.500.12708/") [])
     = [Sleep 5;
        Get (lit "https://repositum.tuwien.at/handle/20.500.12708/299999?mode=full")].
Proof.
  assert (H : valid_id (PyInt 299999))
    by (split; [reflexivity | simpl; lia]).
  split; [exact H|].
  exact (@scrape_events silent_server (PyInt 299999)
           (lit "/handle") (lit "/20.500.12708/") [] H).
Defined.

Lemma scrape_negative_response_witness :
  valid_id (PyInt 0)
  /\ fst (scrape_publication_page silent_server (PyInt 0)
                                  (lit "/handle") (lit "/20.500.12708/") [])
     = Ok (Message (lit "Negative response: 404")).
Proof.
  assert (H : valid_id (PyInt 0)) by (split; [reflexivity | simpl; lia]).
  split; [exact H|].
  refine (@scrape_negative_response silent_server (PyInt 0)
            (lit "/handle") (lit "/20.500.12708/") [] H _).
  simpl. discriminate.
Defined.

Section Record.

Variable server : list event -> pystr -> response.

Lemma fixed_keys_get (views downloads pdf_link : pystr) (d : dict) :
  let d' := dict_set (lit "PDF link") pdf_link
              (dict_set (lit "Downloads") downloads
                 (dict_set (lit "Views") views d)) in
  dict_get (lit "Views") d' = Some views
  /\ dict_get (lit "Downloads") d' = Some downloads
  /\ dict_get (lit "PDF link") d' = Some pdf_link
  /\ forall label,
      label <> lit "Views" -> label <> lit "Downloads" ->
      label <> lit "PDF link" ->
      dict_get label d' = dict_get label d.
Proof.
  intros d'. subst d'.
  assert (H1 : lit "Views" <> lit "PDF link")
    by (apply str_eqb_neq; reflexivity).
  assert (H2 : lit "Views" <> lit "Downloads")
    by (apply str_eqb_neq; reflexivity).
  assert (H3 : lit "Downloads" <> lit "PDF link")
    by (apply str_eqb_neq; reflexivity).
  split; [|split; [|split]].
  - rewrite (dict_get_set_other _ _ H1), (dict_get_set_other _ _ H2).
    apply dict_get_set_same.
  - rewrite (dict_get_set_other _ _ H3). apply dict_get_set_same.
  - apply dict_get_set_same.
  - intros label Hv Hd Hp.
    rewrite (dict_get_set_other _ _ Hp), (dict_get_set_other _ _ Hd),
      (dict_get_set_other _ _ Hv).
    reflexivity.
Qed.

(** X22. A record that [scrape_publication_page] returns binds "Views"
    and "Downloads" to the two results of [get_metrics] and "PDF link" to
    the result of [get_pdf_link], whatever the metadata rows say under
    these labels, and binds every other label as
    [get_resource_attributes] does on the metadata rows. *)
Theorem scrape_record (id : pyval) (path doi_prefix : pystr)
        (tr : list event) (d : dict) :
  let soup := content (server (tr ++ [Sleep CRAWL_DELAY])
                              (page_link id path doi_prefix)) in
  fst (scrape_publication_page server id path doi_prefix tr)
  = Ok (Attributes d) ->
  exists wrapper_display table views downloads pdf_link,
    find_tag (by_id "div" "wrapperDisplayItem") soup = Some wrapper_display
    /\ find_tag (by_class "div" "row") wrapper_display = Some table
    /\ get_metrics soup = Ok (views, downloads)
    /\ get_pdf_link wrapper_display = Ok pdf_link
    /\ dict_get (lit "Views") d = Some views
    /\ dict_get (lit "Downloads") d = Some downloads
    /\ dict_get (lit "PDF link") d = Some pdf_link
    /\ forall label,
        label <> lit "Views" -> label <> lit "Downloads" ->
        label <> lit "PDF link" ->
        dict_get label d
        = dict_get label
            (get_resource_attributes
               (find_all (by_class "div" "row metadata-row") table)).
Proof.
  intros soup.
  destruct (scrape_invalid_or_run server id path doi_prefix tr)
    as [[msg E]|H].
  { rewrite E. discriminate. }
  rewrite (scrape_run server path doi_prefix tr H). simpl fst.
  fold soup. unfold page_outcome.
  destruct (negb (status_code _ =? 200)%Z); [discriminate|].
  cbv zeta. fold soup.
  destruct (find_tag (by_id "div" "wrapperDisplayItem") soup)
    as [wrapper_display|] eqn:Ew; [|discriminate].
  destruct (find_tag (by_class "div" "row") wrapper_display)
    as [table|] eqn:Et; [|discriminate].
  destruct (find_all (by_class "div" "row metadata-row") table)
    as [|row rows] eqn:Erows; [discriminate|].
  destruct (get_metrics soup) as [[views downloads]| |] eqn:Em;
    cbn [obind]; try discriminate.
  destruct (get_pdf_link wrapper_display) as [pdf_link| |] eqn:Ep;
    cbn [obind]; try discriminate.
  intros E. inversion E; subst d; clear E.
  exists wrapper_display, table, views, downloads, pdf_link.
  cbn [fst snd].
  destruct (fixed_keys_get views downloads pdf_link
                           (get_resource_attributes (row :: rows)))
    as (Hv & Hd & Hp & Hother).
  repeat (split; [first [reflexivity | assumption]|]).
  rewrite Erows. exact Hother.
Qed.

End Record.

Lemma scrape_record_witness :
  fst (scrape_publication_page publication_server (PyInt 7)
                               (lit "/handle") (lit "/20.500.12708/") [])
  = Ok (Attributes
          [(lit "dc.subject", lit "Logic, Proofs");
           (lit "dc.title", lit "A thesis");
           (lit "Views", lit "12");
           (lit "Downloads", lit "Downloads not found");
           (lit "PDF link", lit "/bitstream/20.500.12708/7/1/thesis.pdf")])
  /\ exists wrapper_display table views downloads pdf_link,
      find_tag (by_id "div" "wrapperDisplayItem") publication_page
      = Some wrapper_display
      /\ find_tag (by_class "div" "row") wrapper_display = Some table
      /\ get_metrics publication_page = Ok (views, downloads)
      /\ get_pdf_link wrapper_display = Ok pdf_link
      /\ Some (lit "12") = Some views
      /\ Some (lit "Downloads not found") = Some downloads
      /\ Some (lit "/bitstream/20.500.12708/7/1/thesis.pdf") = Some pdf_link
      /\ forall label,
          label <> lit "Views" -> label <> lit "Downloads" ->
          label <> lit "PDF link" ->
          dict_get label
            [(lit "dc.subject", lit "Logic, Proofs");
             (lit "dc.title", lit "A thesis");
             (lit "Views", lit "12");
             (lit "Downloads", lit "Downloads not found");
             (lit "PDF link", lit "/bitstream/20.500.12708/7/1/thesis.pdf")]
          = dict_get label
              (get_resource_attributes
                 (find_all (by_class "div" "row metadata-row") table)).
Proof.
  split; [vm_compute; reflexivity|].
  exact (@scrape_record publication_server (PyInt 7)
           (lit "/handle") (lit "/20.500.12708/") [] _ eq_refl).
Defined.

(** ** The batch *)

Lemma net_trace_app (a b : list io_event) :
  net_trace (a ++ b) = net_trace a ++ net_trace b.
Proof. unfold net_trace. apply flat_map_app. Qed.

Lemma dumps_app (a b : list io_event) : dumps (a ++ b) = dumps a ++ dumps b.
Proof. unfold dumps. apply flat_map_app. Qed.

Lemma opened_app (a b : list io_event) :
  opened (a ++ b) = opened a ++ opened b.
Proof. unfold opened. apply flat_map_app. Qed.

Lemma net_trace_map_Net (evs : list event) : net_trace (List.map Net evs) = evs.
Proof. induction evs as [|e evs IH]; simpl; [|rewrite IH]; reflexivity. Qed.

Lemma dumps_map_Net (evs : list event) : dumps (List.map Net evs) = [].
Proof. induction evs as [|e evs IH]; simpl; [|rewrite IH]; reflexivity. Qed.

Lemma opened_map_Net (evs : list event) : opened (List.map Net evs) = [].
Proof. induction evs as [|e evs IH]; simpl; [|rewrite IH]; reflexivity. Qed.

Lemma skipn_length_app {A} (a b : list A) : skipn (List.length a) (a ++ b) = b.
Proof. induction a as [|x a IH]; simpl; [reflexivity | exact IH]. Qed.

Lemma run_net_app {A} (c : M A) (tr : list io_event)
      (r : outcome A) (evs : list event) :
  c (net_trace tr) = (r, net_trace tr ++ evs) ->
  run_net c tr = (r, tr ++ List.map Net evs).
Proof.
  intros H. unfold run_net. rewrite H, skipn_length_app. reflexivity.
Qed.

Lemma get_metrics_ends (soup : node) : get_metrics soup <> OutOfFuel.
Proof.
  unfold get_metrics.
  destruct (find_tag (by_class "div" "panel-list-right") soup);
    simpl; discriminate.
Qed.

Lemma get_pdf_link_ends (wrapper_display : node) :
  get_pdf_link wrapper_display <> OutOfFuel.
Proof.
  unfold get_pdf_link.
  destruct (find_tag bitstream_div wrapper_display) as [link_div|];
    [|discriminate].
  cbn [truthy negb find_on obind].
  destruct (find_tag (by_name "a") link_div) as [a|]; [|discriminate].
  cbn [getitem_on].
  destruct (get_attr (lit "href") a); discriminate.
Qed.

Lemma page_outcome_ends (page : response) : page_outcome page <> OutOfFuel.
Proof.
  unfold page_outcome.
  destruct (negb (status_code page =? 200)%Z); [discriminate|].
  cbv zeta.
  destruct (find_tag (by_id "div" "wrapperDisplayItem") (content page))
    as [wrapper_display|]; [|discriminate].
  destruct (find_tag (by_class "div" "row") wrapper_display) as [table|];
    [|discriminate].
  destruct (find_all (by_class "div" "row metadata-row") table)
    as [|row rows]; [discriminate|].
  pose proof (get_metrics_ends (content page)) as Hm.
  destruct (get_metrics (content page)) as [m| |];
    cbn [obind]; [| discriminate | congruence].
  pose proof (get_pdf_link_ends wrapper_display) as Hp.
  destruct (get_pdf_link wrapper_display); cbn [obind];
    [discriminate | discriminate | congruence].
Qed.

Lemma get_metrics_errors (soup : node) (e : exn) :
  get_metrics soup = Raise e -> e = none_has_no_attribute "find".
Proof.
  unfold get_metrics.
  destruct (find_tag (by_class "div" "panel-list-right") soup);
    simpl; [discriminate|].
  intros E. inversion E. reflexivity.
Qed.

Lemma get_pdf_link_errors (wrapper_display : node) (e : exn) :
  get_pdf_link wrapper_display = Raise e ->
  e = none_not_subscriptable \/ e = KeyError (lit "href").
Proof.
  unfold get_pdf_link.
  destruct (find_tag bitstream_div wrapper_display) as [link_div|];
    [|discriminate].
  cbn [truthy negb find_on obind].
  destruct (find_tag (by_name "a") link_div) as [a|].
  - cbn [getitem_on]. destruct (get_attr (lit "href") a); cbn [obind].
    + discriminate.
    + intros E. inversion E. auto.
  - cbn [getitem_on obind]. intros E. inversion E. auto.
Qed.

Lemma page_outcome_errors (page : response) (e : exn) :
  page_outcome page = Raise e ->
  e = none_has_no_attribute "find"
  \/ e = none_not_subscriptable \/ e = KeyError (lit "href").
Proof.
  unfold page_outcome.
  destruct (negb (status_code page =? 200)%Z); [discriminate|].
  cbv zeta.
  destruct (find_tag (by_id "div" "wrapperDisplayItem") (content page))
    as [wrapper_display|]; [|discriminate].
  destruct (find_tag (by_class "div" "row") wrapper_display) as [table|];
    [|discriminate].
  destruct (find_all (by_class "div" "row metadata-row") table)
    as [|row rows]; [discriminate|].
  destruct (get_metrics (content page)) as [m|e'|] eqn:Em; cbn [obind].
  - destruct (get_pdf_link wrapper_display) as [p|e'|] eqn:Ep; cbn [obind];
      try discriminate.
    intros E. inversion E; subst. right.
    exact (get_pdf_link_errors _ Ep).
  - intros E. inversion E; subst. left. exact (get_metrics_errors _ Em).
  - discriminate.
Qed.

Section BatchProperties.

Variable server : list event -> pystr -> response.
Variable openable : list io_event -> pystr -> bool.

Lemma scrape_default_raises (id : pyval) (tr : list event) (e : exn) :
  fst (scrape_publication_page_default server id tr) = Raise e ->
  forall path, e <> OSError path.
Proof.
  unfold scrape_publication_page_default.
  destruct (scrape_invalid_or_run server id (lit "/handle")
                                  (lit "/20.500.12708/") tr)
    as [[msg E]|H].
  - rewrite E. simpl. intros He path. inversion He. discriminate.
  - rewrite (scrape_run server (lit "/handle") (lit "/20.500.12708/") tr H).
    simpl fst. intros He path.
    destruct (page_outcome_errors _ He) as [-> | [-> | ->]]; discriminate.
Qed.

(** One turn of the batch: when the file cannot be opened nothing happens
    but the error; otherwise the file is opened, and it is dumped into only
    when the scrape returned. *)
Lemma collect_one_events (id : pyval) (tr : list io_event) :
  exists evs,
    snd (collect_one server openable id tr) = tr ++ evs
    /\ match fst (collect_one server openable id tr) with
       | Ok _ =>
           valid_id id
           /\ opened evs = [metadata_path id]
           /\ List.map fst (dumps evs) = [metadata_path id]
           /\ net_trace evs = [Sleep CRAWL_DELAY; Get (default_link id)]
       | Raise e =>
           dumps evs = []
           /\ ((e = OSError (metadata_path id) /\ opened evs = [])
               \/ ((forall path, e <> OSError path)
                   /\ opened evs = [metadata_path id]))
       | OutOfFuel => False
       end.
Proof.
  unfold collect_one, io_emit.
  set (path := metadata_path id).
  destruct (openable tr path); cbn [negb].
  2:{ exists []. simpl. rewrite app_nil_r. auto. }
  assert (Hseen : net_trace (tr ++ [FileOpen path]) = net_trace tr)
    by (rewrite net_trace_app; apply app_nil_r).
  destruct (scrape_invalid_or_run server id (lit "/handle")
                                  (lit "/20.500.12708/") (net_trace tr))
    as [[msg E]|H].
  - rewrite (@run_net_app _ (scrape_publication_page_default server id)
                          (tr ++ [FileOpen path])
                          (Raise (ValueError msg)) []).
    + exists [FileOpen path; FileClose path]. simpl.
      rewrite app_nil_r, <- app_assoc.
      split; [reflexivity|]. split; [reflexivity|]. right.
      split; [intros p; discriminate | reflexivity].
    + rewrite Hseen, app_nil_r. exact E.
  - pose proof (scrape_run server (lit "/handle") (lit "/20.500.12708/")
                           (net_trace tr) H) as E.
    fold (default_link id) in E. rewrite <- app_assoc in E. simpl app in E.
    pose proof (scrape_default_raises id (net_trace tr)) as Hnot.
    unfold scrape_publication_page_default in Hnot. rewrite E in Hnot.
    simpl fst in Hnot.
    set (r := page_outcome _) in E, Hnot.
    assert (Hr : r <> OutOfFuel) by apply page_outcome_ends.
    rewrite (@run_net_app _ (scrape_publication_page_default server id)
                          (tr ++ [FileOpen path]) r
                          [Sleep CRAWL_DELAY; Get (default_link id)]).
    + destruct r as [value|e|]; [| |congruence].
      * exists [FileOpen path; Net (Sleep CRAWL_DELAY);
                Net (Get (default_link id)); JsonDump path value;
                FileClose path].
        simpl. rewrite <- !app_assoc. auto.
      * exists [FileOpen path; Net (Sleep CRAWL_DELAY);
                Net (Get (default_link id)); FileClose path].
        simpl. rewrite <- !app_assoc.
        split; [reflexivity|]. split; [reflexivity|]. right.
        split; [exact (Hnot e eq_refl) | reflexivity].
    + rewrite Hseen. exact E.
Qed.

Lemma collect_metadata_events (ids : list pyval) :
  forall tr,
  exists evs,
    snd (collect_metadata server openable ids tr) = tr ++ evs
    /\ match fst (collect_metadata server openable ids tr) with
       | Ok _ =>
           Forall valid_id ids
           /\ List.map fst (dumps evs) = List.map metadata_path ids
           /\ opened evs = List.map metadata_path ids
           /\ sleeps (net_trace evs) = List.length ids
           /\ gets (net_trace evs) = List.length ids
       | Raise e =>
           exists ids1 bad ids2,
             ids = ids1 ++ bad :: ids2
             /\ List.map fst (dumps evs) = List.map metadata_path ids1
             /\ ((e = OSError (metadata_path bad)
                  /\ opened evs = List.map metadata_path ids1)
                 \/ ((forall path, e <> OSError path)
                     /\ opened evs = List.map metadata_path (ids1 ++ [bad])))
       | OutOfFuel => False
       end.
Proof.
  induction ids as [|id ids IH]; intros tr.
  - exists []. simpl. rewrite app_nil_r. repeat split. constructor.
  - simpl collect_metadata.
    destruct (collect_one_events id tr) as (evs1 & Htr1 & H1).
    destruct (collect_one server openable id tr) as [[u| e |] tr1];
      simpl in Htr1, H1; subst tr1.
    + destruct H1 as (Hvalid & Hop1 & Hd1 & Hn1).
      destruct (IH (tr ++ evs1)) as (evs & Htr & H).
      exists (evs1 ++ evs). split; [rewrite Htr, app_assoc; reflexivity|].
      destruct (fst (collect_metadata server openable ids (tr ++ evs1)))
        as [u'|e'|].
      * destruct H as (Hall & Hd & Ho & Hs & Hg).
        split; [constructor; assumption|].
        rewrite dumps_app, opened_app, net_trace_app, map_app.
        rewrite Hd1, Hop1, Hd, Ho, Hn1.
        unfold sleeps, gets in *. simpl. rewrite Hs, Hg. auto.
      * destruct H as (ids1 & bad & ids2 & -> & Hd & Ho).
        exists (id :: ids1), bad, ids2.
        rewrite dumps_app, opened_app, map_app, Hd1, Hop1, Hd.
        split; [reflexivity|]. split; [reflexivity|].
        destruct Ho as [[He Ho]|[He Ho]]; rewrite Ho; [left | right]; auto.
      * exact H.
    + exists evs1. split; [reflexivity|].
      exists [], id, ids. destruct H1 as (Hd1 & Ho1). rewrite Hd1.
      split; [reflexivity|]. split; [reflexivity|].
      destruct Ho1 as [[He Ho]|[He Ho]]; rewrite Ho; [left | right]; auto.
    + destruct H1.
Qed.


(** X24. When [collect_metadata] returns, every identifier was a valid
    one, one file per identifier has been opened and dumped, in the order
    of the list, and the site has seen one delay and one request per
    identifier. *)
Theorem collect_metadata_completes
        (ids : list pyval) (tr tr' : list io_event) :
  collect_metadata server openable ids tr = (Ok tt, tr') ->
  Forall valid_id ids
  /\ exists evs,
      tr' = tr ++ evs
      /\ List.map fst (dumps evs) = List.map metadata_path ids
      /\ opened evs = List.map metadata_path ids
      /\ sleeps (net_trace evs) = List.length ids
      /\ gets (net_trace evs) = List.length ids.
Proof.
  intros H. destruct (collect_metadata_events ids tr) as (evs & Htr & Hm).
  rewrite H in Htr, Hm. simpl in Htr, Hm.
  destruct Hm as (Hall & Hd & Ho & Hs & Hg).
  split; [exact Hall|]. exists evs. auto.
Qed.

End BatchProperties.


Example collect_metadata_aborts_files :
  dumps (snd (collect_metadata silent_server writable
                               [PyInt 1; PyInt 300000; PyInt 2] []))
  = [(lit "metadata/1.json", Message (lit "Negative response: 404"))]
  /\ opened (snd (collect_metadata silent_server writable
                                   [PyInt 1; PyInt 300000; PyInt 2] []))
     = [lit "metadata/1.json"; lit "metadata/300000.json"]
  /\ collect_metadata silent_server no_directory [PyInt 1; PyInt 2] []
     = (Raise (OSError (lit "metadata/1.json")), []).
Proof. repeat split; vm_compute; reflexivity. Qed.

Lemma collect_metadata_completes_witness :
  Forall valid_id [PyInt 1; PyInt 2]
  /\ exists evs,
      snd (collect_metadata silent_server writable [PyInt 1; PyInt 2] [])
      = [] ++ evs
      /\ List.map fst (dumps evs)
         = List.map metadata_path [PyInt 1; PyInt 2]
      /\ opened evs = List.map metadata_path [PyInt 1; PyInt 2]
      /\ sleeps (net_trace evs) = 2%nat
      /\ gets (net_trace evs) = 2%nat.
Proof.
  assert (H : collect_metadata silent_server writable [PyInt 1; PyInt 2] []
              = (Ok tt,
                 snd (collect_metadata silent_server writable
                                       [PyInt 1; PyInt 2] [])))
    by (vm_compute; reflexivity).
  exact (collect_metadata_completes silent_server writable _ _ H).
Defined.

Lemma attributes_missing_iff_witness :
  dict_get (lit "dc.type") (get_resource_attributes subject_rows) = None.
Proof.
  exact (proj2 (attributes_missing_iff subject_rows (lit "dc.type")) eq_refl).
Defined.

(** ** Errors on the way through the page orchestrator *)

(** X25. For an identifier that passes the checks and a page that comes
    back with status 200, the metadata wrapper, a row container and at
    least one metadata row: when the page has no side panel,
    [scrape_publication_page] raises the [AttributeError] of [get_metrics]
    in place of a record; when it has one, an error of [get_pdf_link] is
    raised by [scrape_publication_page] as it is. *)
Theorem scrape_passes_errors_on
        (server : list event -> pystr -> response)
        (id : pyval) (path doi_prefix : pystr) (tr : list event)
        (wrapper_display table : node) :
  let page := server (tr ++ [Sleep CRAWL_DELAY])
                     (page_link id path doi_prefix) in
  valid_id id ->
  status_code page = 200%Z ->
  find_tag (by_id "div" "wrapperDisplayItem") (content page)
  = Some wrapper_display ->
  find_tag (by_class "div" "row") wrapper_display = Some table ->
  find_all (by_class "div" "row metadata-row") table <> [] ->
  (find_tag (by_class "div" "panel-list-right") (content page) = None ->
   fst (scrape_publication_page server id path doi_prefix tr)
   = Raise (none_has_no_attribute "find"))
  /\ (forall e,
         find_tag (by_class "div" "panel-list-right") (content page) <> None ->
         get_pdf_link wrapper_display = Raise e ->
         fst (scrape_publication_page server id path doi_prefix tr)
         = Raise e).
Proof.
  intros page Hid Hstatus Hw Ht Hrows.
  rewrite (scrape_run server path doi_prefix tr Hid). simpl fst.
  fold page. unfold page_outcome. rewrite Hstatus. cbn [Z.eqb Pos.eqb negb].
  cbv zeta. rewrite Hw, Ht.
  destruct (find_all (by_class "div" "row metadata-row") table)
    as [|row rows]; [congruence|].
  split.
  - intros Hp. rewrite (get_metrics_without_panel _ Hp). reflexivity.
  - intros e Hp He.
    destruct (find_tag (by_class "div" "panel-list-right") (content page))
      as [panel|] eqn:Epanel; [|congruence].
    destruct (get_metrics_with_panel _ Epanel) as (v & d & ->).
    cbn [obind]. rewrite He. reflexivity.
Qed.

Lemma scrape_passes_errors_on_witness :
  valid_id (PyInt 7)
  /\ fst (scrape_publication_page rows_only_server (PyInt 7)
                                  (lit "/handle") (lit "/20.500.12708/") [])
     = Raise (none_has_no_attribute "find").
Proof.
  assert (H : valid_id (PyInt 7)) by (split; [reflexivity | simpl; lia]).
  split; [exact H|].
  refine (proj1 (@scrape_passes_errors_on rows_only_server (PyInt 7)
                   (lit "/handle") (lit "/20.500.12708/") []
                   (plain "div" [(lit "id", lit "wrapperDisplayItem")]
                          [div_elem "row" subject_rows])
                   (div_elem "row" subject_rows)
                   H eq_refl eq_refl eq_refl _) eq_refl).
  vm_compute. discriminate.
Defined.
